(** * World Bank figures: a model of [scripts/get_data.py]

    [return_figures] asks the World Bank API for one series per indicator,
    flattens the observations it receives, and assembles four plotly figures
    from them with pandas.  This file embeds the function in Rocq and states
    its properties.

    The collaborators are modelled as follows.
    - The HTTP client is a function from the position of a request in the call
      and its URL to what [requests.get(url).json()[1]] evaluates to.
    - Python objects that outlive a call (the two arguments, which by default
      are the module-level objects, the standard output and the requests that
      went out) live in a [heap] that the function threads through.
    - A pandas frame is the list of its rows together with its column labels.
      [sort_values] is any function that returns a sorted permutation: pandas
      sorts with numpy's quicksort, which is not stable, so nothing is assumed
      about the order of rows of the same year.  The type pandas infers for
      the value column, and with it the values a series carries (a [None]
      among numbers becomes [nan], an integer a float), is likewise any
      function of the column that keeps its length. *)

From Stdlib Require Import List String Ascii ZArith Bool Arith Lia.
From Stdlib Require Import Permutation Sorted.
From Stdlib Require Import Floats.SpecFloat.
Import ListNotations.

Local Open Scope string_scope.
Local Open Scope list_scope.

(** ** Python values *)

(** Leaves of a decoded JSON document: [None], a string, an integer or a
    float, a binary64 as the Standard Library specifies it.  [SNaN] is the
    float [nan], which pandas puts in a cell whose row has no such key. *)
Inductive scalar : Type :=
| SNone
| SNaN
| SStr (s : string)
| SNum (n : Z)
| SFloat (f : spec_float).

(** What the [indicator] and [country] entries of an observation hold: the
    object [{"id": .., "value": ..}] of the response, or a leaf once the
    entry has been flattened. *)
Inductive pyval : Type :=
| Scalar (v : scalar)
| Dict (d : list (string * string)).

(** One observation of the response, a dict with the four keys the code
    reads; [None] stands for a key that is absent. *)
Record observation : Type := mkObservation {
  obs_indicator : option pyval;
  obs_country : option pyval;
  obs_date : option scalar;
  obs_value : option scalar
}.

Inductive exn : Type :=
| UnboundLocalError (var : string)
| TypeError
| KeyError (key : string)
| IndexError
| AttributeError (attr : string)
| RequestError.

Inductive result (A : Type) : Type :=
| Ok (a : A)
| Raise (e : exn).
Arguments Ok {A} a.
Arguments Raise {A} e.

Definition rbind {A B : Type} (r : result A) (k : A -> result B) : result B :=
  match r with
  | Ok a => k a
  | Raise e => Raise e
  end.

Declare Scope result_scope.
Delimit Scope result_scope with result.
Notation "x <- r ;; k" := (rbind r (fun x => k))
  (at level 61, r at next level, right associativity) : result_scope.

Definition spec_float_eq_dec (a b : spec_float) : {a = b} + {a <> b}.
Proof.
  decide equality; try apply Bool.bool_dec; try apply Z.eq_dec;
    apply Pos.eq_dec.
Defined.

Definition scalar_eq_dec (a b : scalar) : {a = b} + {a <> b}.
Proof.
  decide equality;
    [apply string_dec | apply Z.eq_dec | apply spec_float_eq_dec].
Defined.

Definition pyval_eq_dec (a b : pyval) : {a = b} + {a <> b}.
Proof.
  decide equality; [apply scalar_eq_dec |].
  apply list_eq_dec. decide equality; apply string_dec.
Defined.

(** ** Strings *)

(** The strings of the model are strings of bytes; a string of Python is
    one of them when all its characters are ASCII. *)
Definition ascii_only (s : string) : bool :=
  forallb (fun c => (nat_of_ascii c <? 128)%nat) (list_ascii_of_string s).

(** [str.lower] on the ASCII range, which holds every ISO-3 code. *)
Definition lower_ascii (c : ascii) : ascii :=
  let n := nat_of_ascii c in
  if andb (65 <=? n)%nat (n <=? 90)%nat then ascii_of_nat (n + 32) else c.

Fixpoint lower (s : string) : string :=
  match s with
  | EmptyString => EmptyString
  | String c s' => String (lower_ascii c) (lower s')
  end.

(** [sep.join(l)] *)
Fixpoint join (sep : string) (l : list string) : string :=
  match l with
  | [] => EmptyString
  | [s] => s
  | s :: l' => s ++ sep ++ join sep l'
  end.

(** ** Module-level defaults *)

Definition OrderedDict : Type := list (string * string).

Definition values (d : OrderedDict) : list string := map snd d.

Definition country_default : OrderedDict :=
  [ ("Canada", "CAN");
    ("United States", "USA");
    ("Brazil", "BRA");
    ("France", "FRA");
    ("India", "IND");
    ("Italy", "ITA");
    ("Germany", "DEU");
    ("United Kingdom", "GBR");
    ("China", "CHN");
    ("Japan", "JPN") ].

Definition indicators_default : list string :=
  [ "EG.USE.ELEC.KH.PC";
    "EG.FEC.RNEW.ZS";
    "EG.USE.PCAP.KG.OE";
    "EN.ATM.GHGT.KT.CE" ].

(** ** Flattening an observation *)

(** [v["value"]] *)
Definition subscript_value (v : pyval) : result string :=
  match v with
  | Dict d =>
      match find (fun kv => fst kv =? "value") d with
      | Some kv => Ok (snd kv)
      | None => Raise (KeyError "value")
      end
  | Scalar _ => Raise TypeError
  end.

(** [value[key]] on an observation *)
Definition getitem {A : Type} (key : string) (entry : option A) : result A :=
  match entry with
  | Some v => Ok v
  | None => Raise (KeyError key)
  end.

(** The body of [for value in data]: the two assignments, in order. *)
Definition flatten (value : observation) : result observation :=
  (ind <- getitem "indicator" (obs_indicator value) ;;
   s <- subscript_value ind ;;
   let value1 := {| obs_indicator := Some (Scalar (SStr s));
                    obs_country := obs_country value;
                    obs_date := obs_date value;
                    obs_value := obs_value value |} in
   c <- getitem "country" (obs_country value1) ;;
   t <- subscript_value c ;;
   Ok {| obs_indicator := obs_indicator value1;
         obs_country := Some (Scalar (SStr t));
         obs_date := obs_date value1;
         obs_value := obs_value value1 |})%result.

(** The whole loop: the observations are updated in place, one after the
    other, and the first one that raises ends the loop. *)
Fixpoint flatten_all (data : list observation) : result (list observation) :=
  match data with
  | [] => Ok []
  | value :: rest =>
      (value' <- flatten value ;;
       rest' <- flatten_all rest ;;
       Ok (value' :: rest'))%result
  end.

(** ** pandas *)

(** A frame: its column labels and its rows, in order.  Selecting rows keeps
    the labels, so a frame without rows can still have columns. *)
Record DataFrame : Type := mkDataFrame {
  columns : list string;
  rows : list observation
}.

Definition is_some {A : Type} (o : option A) : bool :=
  match o with
  | Some _ => true
  | None => false
  end.

Definition has_key (key : string) (o : observation) : bool :=
  if key =? "indicator" then is_some (obs_indicator o)
  else if key =? "country" then is_some (obs_country o)
  else if key =? "date" then is_some (obs_date o)
  else if key =? "value" then is_some (obs_value o)
  else false.

Definition has_column (key : string) (df : DataFrame) : bool :=
  existsb (String.eqb key) (columns df).

(** The cells of a row; a key the row lacks reads as [NaN]. *)
Definition date_cell (o : observation) : scalar :=
  match obs_date o with
  | Some v => v
  | None => SNaN
  end.

Definition value_cell (o : observation) : scalar :=
  match obs_value o with
  | Some v => v
  | None => SNaN
  end.

(** The rows with the cells of the value column put in the place of their
    values, row by row. *)
Definition with_values (data : list observation) (cells : list scalar)
    : list observation :=
  map (fun oc => {| obs_indicator := obs_indicator (fst oc);
                    obs_country := obs_country (fst oc);
                    obs_date := obs_date (fst oc);
                    obs_value := Some (snd oc) |})
      (combine data cells).

(** [pd.DataFrame(data)] for a list of dicts: one row per dict, one column
    per key that some dict has.  The order of the labels plays no role.
    pandas infers a type for each column from its cells and stores the cells
    in that type; [astype] is what this does to the value column, the one
    column whose cells reach a series other than as strings.  The strings of
    a column are kept as they are, so the dates that pass the filter of a
    chart and the names of the countries are those of the dicts. *)
Definition pd_DataFrame (astype : list scalar -> list scalar)
    (data : list observation) : DataFrame :=
  {| columns := filter (fun key => existsb (has_key key) data)
                       ["indicator"; "country"; "date"; "value"];
     rows := if existsb (has_key "value") data
             then with_values data (astype (map value_cell data))
             else data |}.

Definition country_cell (o : observation) : pyval :=
  match obs_country o with
  | Some v => v
  | None => Scalar SNaN
  end.

(** [df[key]] and [df.key] differ in what they raise for a missing column. *)
Definition getitem_column {A : Type} (key : string) (cell : observation -> A)
    (df : DataFrame) : result (list A) :=
  if has_column key df then Ok (map cell (rows df)) else Raise (KeyError key).

Definition getattr_column {A : Type} (key : string) (cell : observation -> A)
    (df : DataFrame) : result (list A) :=
  if has_column key df then Ok (map cell (rows df))
  else Raise (AttributeError key).

(** [series.isin(years)]: a cell is kept when it is one of the strings. *)
Definition isin (cells : list scalar) (years : list string) : list bool :=
  map (fun c => match c with
                | SStr s => existsb (String.eqb s) years
                | _ => false
                end) cells.

(** [df[mask]] *)
Definition loc (df : DataFrame) (mask : list bool) : DataFrame :=
  {| columns := columns df;
     rows := map fst (filter snd (combine (rows df) mask)) |}.

(** [==] between a cell and a scalar, as pandas compares them: a missing
    value equals nothing, not even itself. *)
Definition missing (v : pyval) : bool :=
  match v with
  | Scalar SNone | Scalar SNaN => true
  | _ => false
  end.

Definition cell_eqb (a b : pyval) : bool :=
  if orb (missing a) (missing b) then false
  else if pyval_eq_dec a b then true else false.

Definition eq_mask (cells : list pyval) (v : pyval) : list bool :=
  map (fun c => cell_eqb c v) cells.

(** [series.unique()]: the distinct cells in the order they are first seen.
    The cells go through a hash table, which a dict cannot enter. *)
Fixpoint unique_from (seen cells : list pyval) : list pyval :=
  match cells with
  | [] => []
  | c :: cells' =>
      if existsb (fun s => if pyval_eq_dec s c then true else false) seen
      then unique_from seen cells'
      else c :: unique_from (c :: seen) cells'
  end.

Definition hashable (v : pyval) : bool :=
  match v with
  | Scalar _ => true
  | Dict _ => false
  end.

Definition unique (cells : list pyval) : result (list pyval) :=
  if forallb hashable cells then Ok (unique_from [] cells) else Raise TypeError.

(** *** [sort_values] *)

Definition date_is_str (o : observation) : bool :=
  match obs_date o with
  | Some (SStr _) => true
  | _ => false
  end.

Definition date_key (o : observation) : string :=
  match obs_date o with
  | Some (SStr s) => s
  | _ => EmptyString
  end.

Definition date_le (a b : observation) : Prop :=
  String.leb (date_key a) (date_key b) = true.

(** What the model takes from pandas without fixing it.  Of
    [sort_values("date")] on rows whose dates are all strings it is known
    that the rows come back permuted and in ascending order of date.  Of the
    type inferred for the value column, [astype], it is known that the column
    keeps its length. *)
Record sorter : Type := mkSorter {
  sort_rows :> list observation -> list observation;
  astype : list scalar -> list scalar;
  astype_length : forall cells,
    List.length (astype cells) = List.length cells;
  sort_rows_perm : forall l,
    forallb date_is_str l = true -> Permutation l (sort_rows l);
  sort_rows_sorted : forall l,
    forallb date_is_str l = true -> Sorted date_le (sort_rows l)
}.

(** A type inference, for running the model.  A column with a string is
    kept as it is, and so is a column of integers and a column of [None];
    a column that has a float, or an integer and a [None], and no string
    becomes a column of floats: an integer is rounded to the nearest
    binary64 and [None] becomes [nan]. *)
Definition is_str (c : scalar) : bool :=
  match c with
  | SStr _ => true
  | _ => false
  end.

Definition is_float (c : scalar) : bool :=
  match c with
  | SFloat _ | SNaN => true
  | _ => false
  end.

Definition is_int (c : scalar) : bool :=
  match c with
  | SNum _ => true
  | _ => false
  end.

Definition is_none (c : scalar) : bool :=
  match c with
  | SNone => true
  | _ => false
  end.

Definition to_float64 (c : scalar) : scalar :=
  match c with
  | SNum n => SFloat (binary_normalize 53 1024 n 0 false)
  | SNone => SNaN
  | _ => c
  end.

Definition infer_float64 (cells : list scalar) : list scalar :=
  if existsb is_str cells then cells
  else if orb (existsb is_float cells)
              (andb (existsb is_int cells) (existsb is_none cells))
       then map to_float64 cells
       else cells.

(** A stable sort, for running the model: insertion by date. *)
Fixpoint insert_row (o : observation) (l : list observation) : list observation :=
  match l with
  | [] => [o]
  | p :: l' =>
      if String.leb (date_key o) (date_key p) then o :: l
      else p :: insert_row o l'
  end.

Fixpoint insertion_sort (l : list observation) : list observation :=
  match l with
  | [] => []
  | o :: l' => insert_row o (insertion_sort l')
  end.

(** ** plotly *)

(** [go.Scatter(x=, y=, mode=, name=)] and [go.Bar(x=, y=, name=)] *)
Inductive trace : Type :=
| Scatter (x y : list scalar) (mode : string) (name : pyval)
| Bar (x y : list scalar) (name : pyval).

Definition trace_type (t : trace) : string :=
  match t with
  | Scatter _ _ _ _ => "scatter"
  | Bar _ _ _ => "bar"
  end.

Definition trace_mode (t : trace) : option string :=
  match t with
  | Scatter _ _ mode _ => Some mode
  | Bar _ _ _ => None
  end.

Definition trace_x (t : trace) : list scalar :=
  match t with
  | Scatter x _ _ _ | Bar x _ _ => x
  end.

Definition trace_y (t : trace) : list scalar :=
  match t with
  | Scatter _ y _ _ | Bar _ y _ => y
  end.

Definition trace_name (t : trace) : pyval :=
  match t with
  | Scatter _ _ _ name | Bar _ _ name => name
  end.

Record axis : Type := mkAxis { axis_title : string }.

(** The layout dicts of the code; [barmode] is the one optional key. *)
Record layout : Type := mkLayout {
  barmode : option string;
  title : string;
  xaxis : axis;
  yaxis : axis
}.

(** [dict(data=.., layout=..)] *)
Record figure : Type := mkFigure {
  fig_data : list trace;
  fig_layout : layout
}.

(** ** The heap and the collaborator *)

(** The objects a call can reach that are not its own: the two arguments,
    what has been printed, and the URLs handed to [requests.get]. *)
Record heap : Type := mkHeap {
  countries_obj : OrderedDict;
  indicators_obj : list string;
  stdout : list string;
  requested : list string
}.

(** What [resp.json()[1]] is when nothing raises: [null] or the list of
    observations. *)
Inductive json1 : Type :=
| JNull
| JRecords (l : list observation).

(** The answer to the [i]-th request of a call, for its URL; [None] when
    [requests.get(url)], [.json()] or [[1]] raises.  The answer is a value:
    this is a collaborator that, like [requests], decodes every body into
    objects no one else holds, so that what the loop does to them is seen
    by this call only.  A collaborator that keeps the objects it hands out
    is a [keeper], below. *)
Definition collaborator : Type := nat -> string -> option json1.

Definition M (A : Type) : Type := heap -> result A * heap.

Definition ret {A : Type} (a : A) : M A := fun h => (Ok a, h).

Definition raise {A : Type} (e : exn) : M A := fun h => (Raise e, h).

Definition lift {A : Type} (r : result A) : M A := fun h => (r, h).

Definition bind {A B : Type} (m : M A) (k : A -> M B) : M B :=
  fun h =>
    match m h with
    | (Ok a, h') => k a h'
    | (Raise e, h') => (Raise e, h')
    end.

(** [try: body / except: handler], with a bare [except]. *)
Definition try_except {A : Type} (body handler : M A) : M A :=
  fun h =>
    match body h with
    | (Ok a, h') => (Ok a, h')
    | (Raise _, h') => handler h'
    end.

Declare Scope heap_scope.
Delimit Scope heap_scope with heap.
Notation "x <- m ;; k" := (bind m (fun x => k))
  (at level 61, m at next level, right associativity) : heap_scope.
Notation "m ;; k" := (bind m (fun _ => k))
  (at level 61, right associativity) : heap_scope.

Definition print (line : string) : M unit :=
  fun h => (Ok tt, {| countries_obj := countries_obj h;
                      indicators_obj := indicators_obj h;
                      stdout := stdout h ++ [line];
                      requested := requested h |}).

Definition read_countries : M OrderedDict := fun h => (Ok (countries_obj h), h).

Definition read_indicators : M (list string) :=
  fun h => (Ok (indicators_obj h), h).

(** [for a in l: s = body(s, a)] *)
Fixpoint for_each {A S : Type} (body : S -> A -> M S) (l : list A) (s : S) : M S :=
  match l with
  | [] => ret s
  | a :: l' => (s' <- body s a ;; for_each body l' s')%heap
  end.

(** [enumerate(l)] *)
Definition enumerate {A : Type} (l : list A) : list (nat * A) :=
  combine (seq 0 (List.length l)) l.

(** The local variables of the first loop.  [data] is unbound until a
    request has succeeded. *)
Record locals : Type := mkLocals {
  data : option json1;
  data_frames : list (list observation);
  urls : list string
}.

Definition years_one : list string :=
  ["1990"; "1995"; "2000"; "2005"; "2010"; "2014"].

Definition years_two : list string :=
  ["1990"; "1995"; "2000"; "2005"; "2010"; "2015"].

Definition layout_one : layout :=
  {| barmode := None;
     title := "Electric power consumption 1990 to 2015<br>(kWh per capita)";
     xaxis := {| axis_title := "Year" |};
     yaxis := {| axis_title := "KWh (Thousand)" |} |}.

Definition layout_two : layout :=
  {| barmode := Some "stack";
     title := "% Renewable energy consumption 1990 to 2015";
     xaxis := {| axis_title := "Year" |};
     yaxis := {| axis_title := "% of total final energy" |} |}.

Definition layout_three : layout :=
  {| barmode := None;
     title := "Energy use <br> (kg of oil equivalent per capita)";
     xaxis := {| axis_title := "Year" |};
     yaxis := {| axis_title := "Energy (Kg of oil)" |} |}.

Definition layout_four : layout :=
  {| barmode := Some "stack";
     title := "Total greenhouse gas emissions 1990-2015<br>(kt of CO2 equivalent)";
     xaxis := {| axis_title := "Year" |};
     yaxis := {| axis_title := "CO2 equivalents (kilo tonnes)" |} |}.

(** [l[i]] *)
Definition index {A : Type} (l : list A) (i : nat) : result A :=
  match nth_error l i with
  | Some a => Ok a
  | None => Raise IndexError
  end.

(** [df[df["date"].isin(years)]] *)
Definition select_years (df : DataFrame) (years : list string) : result DataFrame :=
  (dates <- getitem_column "date" date_cell df ;;
   Ok (loc df (isin dates years)))%result.

(** [df[df["country"] == country]] *)
Definition select_country (df : DataFrame) (country : pyval) : result DataFrame :=
  (cells <- getitem_column "country" country_cell df ;;
   Ok (loc df (eq_mask cells country)))%result.

(** The body of [for country in countrylist], up to the trace built from
    [x_val] and [y_val]. *)
Definition x_y_val (df : DataFrame) (country : pyval)
    : result (list scalar * list scalar) :=
  (sel_x <- select_country df country ;;
   x_val <- getattr_column "date" date_cell sel_x ;;
   sel_y <- select_country df country ;;
   y_val <- getattr_column "value" value_cell sel_y ;;
   Ok (x_val, y_val))%result.

Fixpoint for_countries (df : DataFrame)
    (mk : list scalar -> list scalar -> pyval -> trace)
    (countrylist : list pyval) : result (list trace) :=
  match countrylist with
  | [] => Ok []
  | country :: rest =>
      (xy <- x_y_val df country ;;
       graph <- for_countries df mk rest ;;
       Ok (mk (fst xy) (snd xy) country :: graph))%result
  end.

Definition scatter_trace (x y : list scalar) (name : pyval) : trace :=
  Scatter x y "lines+markers" name.

Definition bar_trace (x y : list scalar) (name : pyval) : trace :=
  Bar x y name.

Section Model.

Variable sort_values : sorter.
Variable http : collaborator.

(** [df.sort_values("date", inplace=True)] *)
Definition sort_values_date (df : DataFrame) : result DataFrame :=
  if has_column "date" df
  then Ok {| columns := columns df; rows := sort_values (rows df) |}
  else Raise (KeyError "date").

(** [pd.DataFrame(data_frames[i])], filtered to [years] and sorted. *)
Definition prepare (frames : list (list observation)) (i : nat)
    (years : list string) : result DataFrame :=
  (records <- index frames i ;;
   df <- select_years (pd_DataFrame (astype sort_values) records) years ;;
   sort_values_date df)%result.

Definition df_one (frames : list (list observation)) : result DataFrame :=
  prepare frames 0 ["1990"; "1995"; "2000"; "2005"; "2010"; "2014"].

Definition df_two (frames : list (list observation)) : result DataFrame :=
  prepare frames 1 ["1990"; "1995"; "2000"; "2005"; "2010"; "2015"].

Definition df_three (frames : list (list observation)) : result DataFrame :=
  prepare frames 1 ["1990"; "1995"; "2000"; "2005"; "2010"; "2015"].

Definition df_four (frames : list (list observation)) : result DataFrame :=
  prepare frames 3 ["1990"; "1995"; "2000"; "2005"; "2010"; "2015"].

(** [df_one.country.unique().tolist()] *)
Definition countrylist_of (df : DataFrame) : result (list pyval) :=
  (cells <- getattr_column "country" country_cell df ;;
   unique cells)%result.

(** Everything after the first loop, which no longer touches the heap. *)
Definition assemble (frames : list (list observation)) : result (list figure) :=
  (one <- df_one frames ;;
   countrylist <- countrylist_of one ;;
   graph_one <- for_countries one scatter_trace countrylist ;;
   two <- df_two frames ;;
   graph_two <- for_countries two bar_trace countrylist ;;
   three <- df_three frames ;;
   graph_three <- for_countries three scatter_trace countrylist ;;
   four <- df_four frames ;;
   graph_four <- for_countries four bar_trace countrylist ;;
   Ok [ {| fig_data := graph_one; fig_layout := layout_one |};
        {| fig_data := graph_two; fig_layout := layout_two |};
        {| fig_data := graph_three; fig_layout := layout_three |};
        {| fig_data := graph_four; fig_layout := layout_four |} ])%result.

(** [resp = requests.get(url); data = resp.json()[1]] *)
Definition requests_get_json1 (i : nat) (url : string) : M json1 :=
  fun h =>
    (match http i url with
     | Some d => Ok d
     | None => Raise RequestError
     end,
     {| countries_obj := countries_obj h;
        indicators_obj := indicators_obj h;
        stdout := stdout h;
        requested := requested h ++ [url] |}).

Definition build_url (country_filter indicator : string) : string :=
  ("http://api.worldbank.org/v2/country/"
     ++ country_filter
     ++ "/indicator/"
     ++ indicator
     ++ "?date=1990:2015&per_page=1000&format=json")%string.

(** [for value in data: ...], on whatever [data] is bound to. *)
Definition flatten_data (d : option json1) : result (list observation) :=
  match d with
  | None => Raise (UnboundLocalError "data")
  | Some JNull => Raise TypeError
  | Some (JRecords l) => flatten_all l
  end.

(** The body of [for indicator in indicators].  When the request raises,
    [data] still refers to the list of the indicator before, whose
    observations the pass before has updated in place: [data s] holds that
    list as it is then, and the loop over it runs again. *)
Definition fetch (country_filter : string) (s : locals)
    (step : nat * string) : M locals :=
  let indicator := snd step in
  let url := build_url country_filter indicator in
  let urls' := urls s ++ [url] in
  (d <- try_except
          (d <- requests_get_json1 (fst step) url ;; ret (Some d))
          (print ("could not load data for " ++ indicator)%string ;;
           ret (data s)) ;;
   records <- lift (flatten_data d) ;;
   ret {| data := Some (JRecords records);
          data_frames := data_frames s ++ [records];
          urls := urls' |})%heap.

Definition country_filter (countries : OrderedDict) : string :=
  join ";" (map lower (values countries)).

Definition return_figures : M (list figure) :=
  (countries <- read_countries ;;
   indicators <- read_indicators ;;
   s <- for_each (fetch (country_filter countries)) (enumerate indicators)
          {| data := None; data_frames := []; urls := [] |} ;;
   lift (assemble (data_frames s)))%heap.

End Model.

(** ** A collaborator that keeps its objects *)

(** [requests] decodes the body of every response into objects of its own,
    which is what [collaborator] describes.  A collaborator may instead
    keep objects and hand the same object out more than once, as a mock
    with fixtures does.  The loop [for value in data] rewrites the dicts of
    the list it is given, so what a call does to a kept object stays. *)

(** What [resp.json()[1]] evaluates to: an object decoded for this request,
    or the object the collaborator keeps at an address. *)
Inductive handout : Type :=
| Decoded (d : json1)
| Kept (a : nat).

Definition keeper : Type := nat -> string -> option handout.

(** The heap, with the objects the collaborator keeps. *)
Record kheap : Type := mkKheap {
  plain : heap;
  kept : nat -> json1
}.

(** What a variable of the call refers to: an object decoded for this
    call, given with its content, or a kept object, given by its address.
    An object of the first kind is reached through [data] and [data_frames]
    only, and once it has been flattened a second pass over it changes
    nothing before it raises, so its content can stand for it. *)
Inductive dataref : Type :=
| Mine (d : json1)
| Theirs (a : nat).

Record klocals : Type := mkKlocals {
  kdata : option dataref;
  kdata_frames : list dataref;
  kurls : list string
}.

Definition KM (A : Type) : Type := kheap -> result A * kheap.

Definition kret {A : Type} (a : A) : KM A := fun w => (Ok a, w).

Definition kbind {A B : Type} (m : KM A) (k : A -> KM B) : KM B :=
  fun w =>
    match m w with
    | (Ok a, w') => k a w'
    | (Raise e, w') => (Raise e, w')
    end.

Definition ktry_except {A : Type} (body handler : KM A) : KM A :=
  fun w =>
    match body w with
    | (Ok a, w') => (Ok a, w')
    | (Raise _, w') => handler w'
    end.

(** A computation on the heap proper, which leaves the kept objects. *)
Definition on_plain {A : Type} (m : M A) : KM A :=
  fun w =>
    match m (plain w) with
    | (r, h') => (r, {| plain := h'; kept := kept w |})
    end.

Fixpoint kfor_each {A S : Type} (body : S -> A -> KM S) (l : list A) (s : S)
    : KM S :=
  match l with
  | [] => kret s
  | a :: l' => kbind (body s a) (kfor_each body l')
  end.

(** The two assignments of the loop body on one dict: its outcome, and the
    dict as it is left, also when the second assignment raises after the
    first is done. *)
Definition flatten_dict (value : observation) : result unit * observation :=
  match (ind <- getitem "indicator" (obs_indicator value) ;;
         subscript_value ind)%result with
  | Raise e => (Raise e, value)
  | Ok s =>
      let value1 := {| obs_indicator := Some (Scalar (SStr s));
                       obs_country := obs_country value;
                       obs_date := obs_date value;
                       obs_value := obs_value value |} in
      match (c <- getitem "country" (obs_country value1) ;;
             subscript_value c)%result with
      | Raise e => (Raise e, value1)
      | Ok t =>
          (Ok tt, {| obs_indicator := obs_indicator value1;
                     obs_country := Some (Scalar (SStr t));
                     obs_date := obs_date value1;
                     obs_value := obs_value value1 |})
      end
  end.

(** [for value in data: ...] on a list: its outcome, and the list as it is
    left; the dicts after the one that raises are untouched. *)
Fixpoint flatten_in_place (data : list observation)
    : result unit * list observation :=
  match data with
  | [] => (Ok tt, [])
  | value :: rest =>
      match flatten_dict value with
      | (Ok _, value') =>
          match flatten_in_place rest with
          | (r, rest') => (r, value' :: rest')
          end
      | (Raise e, value') => (Raise e, value' :: rest)
      end
  end.

(** The object a reference stands for. *)
Definition deref (w : kheap) (r : dataref) : json1 :=
  match r with
  | Mine d => d
  | Theirs a => kept w a
  end.

(** [for value in data: ...] on the object [data] refers to. *)
Definition flatten_object (r : dataref) : KM dataref :=
  fun w =>
    match deref w r with
    | JNull => (Raise TypeError, w)
    | JRecords l =>
        match flatten_in_place l with
        | (outcome, l') =>
            match r with
            | Mine _ =>
                (rbind outcome (fun _ => Ok (Mine (JRecords l'))), w)
            | Theirs a =>
                (rbind outcome (fun _ => Ok (Theirs a)),
                 {| plain := plain w;
                    kept := fun b => if Nat.eqb b a then JRecords l'
                                     else kept w b |})
            end
        end
    end.

Definition records_of (d : json1) : list observation :=
  match d with
  | JNull => []
  | JRecords l => l
  end.

Section Keeping.

Variable sort_values : sorter.
Variable keep : keeper.

(** [resp = requests.get(url); data = resp.json()[1]] *)
Definition hand_out (i : nat) (url : string) : KM dataref :=
  fun w =>
    (match keep i url with
     | Some (Decoded d) => Ok (Mine d)
     | Some (Kept a) => Ok (Theirs a)
     | None => Raise RequestError
     end,
     {| plain := {| countries_obj := countries_obj (plain w);
                    indicators_obj := indicators_obj (plain w);
                    stdout := stdout (plain w);
                    requested := requested (plain w) ++ [url] |};
        kept := kept w |}).

(** The body of [for indicator in indicators]. *)
Definition kfetch (country_filter : string) (s : klocals)
    (step : nat * string) : KM klocals :=
  let indicator := snd step in
  let url := build_url country_filter indicator in
  let urls' := kurls s ++ [url] in
  kbind (ktry_except
           (kbind (hand_out (fst step) url) (fun r => kret (Some r)))
           (kbind (on_plain
                     (print ("could not load data for " ++ indicator)%string))
                  (fun _ => kret (kdata s))))
        (fun d =>
           kbind (match d with
                  | None => fun w => (Raise (UnboundLocalError "data"), w)
                  | Some r => flatten_object r
                  end)
                 (fun r =>
                    kret {| kdata := Some r;
                            kdata_frames := kdata_frames s ++ [r];
                            kurls := urls' |})).

(** [return_figures] with a collaborator that may keep its objects.  The
    charts read the lists of [data_frames] as they are after the loop. *)
Definition return_figures_keeping : KM (list figure) :=
  kbind (on_plain read_countries) (fun countries =>
  kbind (on_plain read_indicators) (fun indicators =>
  kbind (kfor_each (kfetch (country_filter countries)) (enumerate indicators)
           {| kdata := None; kdata_frames := []; kurls := [] |})
        (fun s w =>
           (assemble sort_values
              (map (fun r => records_of (deref w r)) (kdata_frames s)),
            w)))).

End Keeping.

(** The collaborator that decodes what a keeper hands out, for a keeper
    that keeps nothing. *)
Definition decoding (keep : keeper) : collaborator :=
  fun i url =>
    match keep i url with
    | Some (Decoded d) => Some d
    | Some (Kept _) => None
    | None => None
    end.

Definition keeps_nothing (keep : keeper) : Prop :=
  forall i url a, keep i url <> Some (Kept a).

(** The variables of the two loops stand for the same objects. *)
Definition same_locals (s : locals) (ks : klocals) : Prop :=
  kdata ks = option_map Mine (data s) /\
  kdata_frames ks = map (fun l => Mine (JRecords l)) (data_frames s) /\
  kurls ks = urls s.

(** ** Closed forms used to state the properties *)

(** The row passes [df["date"].isin(years)]. *)
Definition year_in (years : list string) (o : observation) : bool :=
  match date_cell o with
  | SStr s => existsb (String.eqb s) years
  | _ => false
  end.

(** The row passes [df["country"] == country]. *)
Definition of_country (country : pyval) (o : observation) : bool :=
  cell_eqb (country_cell o) country.

(** The trace of one country over the rows of a chart. *)
Definition series (mk : list scalar -> list scalar -> pyval -> trace)
    (chart_rows : list observation) (country : pyval) : trace :=
  mk (map date_cell (filter (of_country country) chart_rows))
     (map value_cell (filter (of_country country) chart_rows))
     country.

(** An observation as the API sends it: the two nested objects carry a
    display value, and the date and the value are there. *)
Definition well_formed (o : observation) : bool :=
  match obs_indicator o, obs_country o with
  | Some (Dict i), Some (Dict c) =>
      andb (andb (existsb (fun kv => fst kv =? "value") i)
                 (existsb (fun kv => fst kv =? "value") c))
           (andb (is_some (obs_date o)) (is_some (obs_value o)))
  | _, _ => false
  end.

(** An observation whose two entries have been flattened already. *)
Definition flattened (o : observation) : Prop :=
  (exists s, obs_indicator o = Some (Scalar (SStr s))) /\
  (exists t, obs_country o = Some (Scalar (SStr t))).

(** A row as the frames of a successful call hold them. *)
Definition full_row (o : observation) : Prop :=
  flattened o /\ is_some (obs_date o) = true /\ is_some (obs_value o) = true.

(** [o'] is [o] but for the type of its value. *)
Definition retyped (o o' : observation) : Prop :=
  obs_indicator o' = obs_indicator o /\
  obs_country o' = obs_country o /\
  obs_date o' = obs_date o.

(** The rows of the frame pandas builds from the records: the records, with
    their values in the type inferred for the column. *)
Definition frame (sort_values : sorter) (records : list observation)
    : list observation :=
  rows (pd_DataFrame (astype sort_values) records).

(** The rows of a chart: those of the frame of its indicator, restricted to
    the years of the chart and sorted. *)
Definition chart_rows (sort_values : sorter) (records : list observation)
    (years : list string) : list observation :=
  sort_values (filter (year_in years) (frame sort_values records)).

(** The country order that every chart follows, from the records of the
    first indicator. *)
Definition canonical_order (sort_values : sorter)
    (records : list observation) : list pyval :=
  unique_from [] (map country_cell (chart_rows sort_values records years_one)).

(** The four figures, from the flattened records of the indicators at
    positions 0, 1 and 3. *)
Definition figures_of (sort_values : sorter)
    (records0 records1 records3 : list observation) : list figure :=
  let countrylist := canonical_order sort_values records0 in
  [ {| fig_data := map (series scatter_trace
                          (chart_rows sort_values records0 years_one))
                       countrylist;
       fig_layout := layout_one |};
    {| fig_data := map (series bar_trace
                          (chart_rows sort_values records1 years_two))
                       countrylist;
       fig_layout := layout_two |};
    {| fig_data := map (series scatter_trace
                          (chart_rows sort_values records1 years_two))
                       countrylist;
       fig_layout := layout_three |};
    {| fig_data := map (series bar_trace
                          (chart_rows sort_values records3 years_two))
                       countrylist;
       fig_layout := layout_four |} ].

(** [records] is what the call holds for the indicator at position [i]: the
    observations the collaborator answered with, flattened. *)
Definition source (http : collaborator) (h : heap) (i : nat)
    (records : list observation) : Prop :=
  exists code l,
    nth_error (indicators_obj h) i = Some code /\
    http i (build_url (country_filter (countries_obj h)) code)
      = Some (JRecords l) /\
    flatten_all l = Ok records.

(** The collaborator answers the request of this step with a list of
    well-formed observations that is not empty. *)
Definition answered (http : collaborator) (filter_str : string)
    (step : nat * string) : bool :=
  match http (fst step) (build_url filter_str (snd step)) with
  | Some (JRecords (o :: l)) => forallb well_formed (o :: l)
  | _ => false
  end.

(** What the first loop keeps true of [data]: when bound, it is bound to a
    list whose observations have all been flattened. *)
Definition data_inv (s : locals) : Prop :=
  match data s with
  | None => True
  | Some JNull => False
  | Some (JRecords r) => Forall flattened r
  end.

(** Two heaps that hold the same arguments. *)
Definition same_args (h1 h2 : heap) : Prop :=
  countries_obj h1 = countries_obj h2 /\ indicators_obj h1 = indicators_obj h2.

(** A computation that reads nothing of the heap but the arguments and
    leaves them as they are. *)
Definition respects {A : Type} (m : M A) : Prop :=
  forall h1 h2, same_args h1 h2 ->
    fst (m h1) = fst (m h2) /\
    same_args (snd (m h1)) (snd (m h2)) /\
    same_args h1 (snd (m h1)).

(** The two ways the code builds a trace. *)
Definition builder (mk : list scalar -> list scalar -> pyval -> trace) : Prop :=
  mk = scatter_trace \/ mk = bar_trace.

(** The points of a trace are the records of its country whose date is one
    of [years], all of them and nothing else, in some order. *)
Definition drawn_from (years : list string) (records : list observation)
    (t : trace) : Prop :=
  exists chosen,
    Permutation
      (filter (fun o => andb (year_in years o) (of_country (trace_name t) o))
              records)
      chosen /\
    trace_x t = map date_cell chosen /\
    trace_y t = map value_cell chosen.

(** A trace whose country has no record of one of [years] is empty. *)
Definition empty_when_absent (years : list string)
    (records : list observation) (t : trace) : Prop :=
  (forall o, In o records -> year_in years o = true ->
             of_country (trace_name t) o = false) ->
  trace_x t = [] /\ trace_y t = [].

(** ** A run on small data *)

(** An observation as the API sends it. *)
Definition observed (indicator country year : string) (v : Z) : observation :=
  {| obs_indicator := Some (Dict [("id", "ID"); ("value", indicator)]);
     obs_country := Some (Dict [("id", "XX"); ("value", country)]);
     obs_date := Some (SStr year);
     obs_value := Some (SNum v) |}.

(** The heap of a call with the default arguments. *)
Definition default_heap : heap :=
  {| countries_obj := country_default;
     indicators_obj := indicators_default;
     stdout := [];
     requested := [] |}.

(** A collaborator that answers every request.  Brazil has no renewable
    share on record, and the observations of 1992 and 2014 fall outside the
    years of some chart. *)
Definition http_example : collaborator :=
  fun i _ =>
    match i with
    | 0 => Some (JRecords
             [ observed "Electric power" "Canada" "2014" 15546;
               observed "Electric power" "Brazil" "1990" 1462;
               observed "Electric power" "Canada" "1992" 16100;
               observed "Electric power" "Canada" "1990" 16167 ])
    | 1 => Some (JRecords
             [ observed "Renewable energy" "Canada" "2015" 22;
               observed "Renewable energy" "Canada" "2014" 23;
               observed "Renewable energy" "Canada" "1990" 21 ])
    | 2 => Some (JRecords
             [ observed "Energy use" "Brazil" "1990" 937 ])
    | _ => Some (JRecords
             [ observed "Greenhouse gas" "Brazil" "2010" 1000;
               observed "Greenhouse gas" "Canada" "2010" 700 ])
    end.

(** The same collaborator, except that the second request fails. *)
Definition http_second_fails : collaborator :=
  fun i url =>
    match i with
    | 1 => None
    | _ => http_example i url
    end.

(** The URL of a request as the specification words it, over https. *)
Definition url_as_specified (host filter_str code : string) : string :=
  ("https://" ++ host ++ "/v2/country/" ++ filter_str ++ "/indicator/" ++ code
     ++ "?date=1990:2015&per_page=1000&format=json")%string.

(** An observation whose value is null, as the API sends it for a year
    without a measurement. *)
Definition observed_null (indicator country year : string) : observation :=
  {| obs_indicator := Some (Dict [("id", "ID"); ("value", indicator)]);
     obs_country := Some (Dict [("id", "XX"); ("value", country)]);
     obs_date := Some (SStr year);
     obs_value := Some SNone |}.

(** A collaborator whose answers have a null among the numbers, and an
    integer that is not a binary64. *)
Definition http_with_null : collaborator :=
  fun _ _ =>
    Some (JRecords [ observed "Energy" "A" "1990" 5;
                     observed_null "Energy" "A" "1995";
                     observed "Energy" "B" "1990" 9007199254740993 ]).

(** The collaborator of the example as [requests] would be: every answer
    is decoded afresh. *)
Definition keep_decoded : keeper :=
  fun i url => option_map Decoded (http_example i url).

(** The answers of the example as objects that a mock keeps, the answer to
    the request at position [a] at the address [a]. *)
Definition fixtures : nat -> json1 :=
  fun a =>
    match http_example a EmptyString with
    | Some d => d
    | None => JNull
    end.

(** A mock that hands out its fixtures themselves. *)
Definition keep_fixtures : keeper := fun i _ => Some (Kept i).

(** A mock that keeps the answer to the first request only. *)
Definition keep_first : keeper :=
  fun i url =>
    match i with
    | 0 => Some (Kept 0)
    | _ => option_map Decoded (http_example i url)
    end.

(** The heap of a call with the default arguments, with the fixtures. *)
Definition default_kheap : kheap :=
  {| plain := default_heap; kept := fixtures |}.

(** ** Further closed forms *)

(** The order of two x values of a trace: both are strings, the first at
    most the second as Python compares strings. *)
Definition year_le (a b : scalar) : Prop :=
  match a, b with
  | SStr s, SStr t => String.leb s t = true
  | _, _ => False
  end.

(** The line the handler of a failed request prints. *)
Definition could_not_load (step : nat * string) : string :=
  ("could not load data for " ++ snd step)%string.

(** The request of this step raises. *)
Definition failed (http : collaborator) (filter_str : string)
    (step : nat * string) : bool :=
  match http (fst step) (build_url filter_str (snd step)) with
  | None => true
  | Some _ => false
  end.

(** The collaborator answers the request of this step with a list of
    well-formed observations, which may be empty. *)
Definition replied (http : collaborator) (filter_str : string)
    (step : nat * string) : bool :=
  match http (fst step) (build_url filter_str (snd step)) with
  | Some (JRecords l) => forallb well_formed l
  | _ => false
  end.

(** The answer to the request of this step is the empty list. *)
Definition replied_nothing (http : collaborator) (filter_str : string)
    (step : nat * string) : bool :=
  match http (fst step) (build_url filter_str (snd step)) with
  | Some (JRecords []) => true
  | _ => false
  end.

(** *** More runs on small data *)

(** The first request fails. *)
Definition http_first_fails : collaborator :=
  fun i url =>
    match i with
    | 0 => None
    | _ => http_example i url
    end.

(** The second answer has an observation without a country. *)
Definition http_no_country : collaborator :=
  fun i url =>
    match i with
    | 1 => Some (JRecords
             [ observed "Renewable energy" "Canada" "2015" 22;
               {| obs_indicator :=
                    Some (Dict [("id", "ID"); ("value", "Renewable energy")]);
                  obs_country := None;
                  obs_date := Some (SStr "1990");
                  obs_value := Some (SNum 21) |} ])
    | _ => http_example i url
    end.

(** The fourth answer is the empty list. *)
Definition http_fourth_empty : collaborator :=
  fun i url =>
    match i with
    | 3 => Some (JRecords [])
    | _ => http_example i url
    end.

(** The third answer differs from that of [http_example]. *)
Definition http_other_third : collaborator :=
  fun i url =>
    match i with
    | 2 => Some (JRecords
             [ observed "Energy use" "Canada" "2000" 8000;
               observed "Energy use" "Brazil" "2000" 1000 ])
    | _ => http_example i url
    end.

(** The heap of a call with three of the default indicators. *)
Definition three_indicators_heap : heap :=
  {| countries_obj := country_default;
     indicators_obj :=
       ["EG.USE.ELEC.KH.PC"; "EG.FEC.RNEW.ZS"; "EG.USE.PCAP.KG.OE"];
     stdout := [];
     requested := [] |}.

(** ** The reference sort *)

(** [insertion_sort] is a sorter: it permutes and it sorts. *)

Lemma not_leb_leb (a b : string) : String.leb a b = false -> String.leb b a = true.
Proof.
  intros H. destruct (String.leb_total a b) as [H'|H']; congruence.
Qed.

Lemma insert_row_perm (o : observation) (l : list observation) :
  Permutation (o :: l) (insert_row o l).
Proof.
  induction l as [|p l IH]; simpl; [reflexivity|].
  destruct (String.leb (date_key o) (date_key p)); [reflexivity|].
  rewrite perm_swap. now apply perm_skip.
Qed.

Lemma insert_row_hd (o : observation) (l : list observation) (q : observation) :
  date_le q o -> HdRel date_le q l -> HdRel date_le q (insert_row o l).
Proof.
  intros Hqo Hl. destruct l as [|p l]; simpl.
  - now constructor.
  - destruct (String.leb (date_key o) (date_key p)).
    + now constructor.
    + inversion Hl; subst. now constructor.
Qed.

Lemma insert_row_sorted (o : observation) (l : list observation) :
  Sorted date_le l -> Sorted date_le (insert_row o l).
Proof.
  induction l as [|p l IH]; intros Hs; simpl.
  - repeat constructor.
  - destruct (String.leb (date_key o) (date_key p)) eqn:E.
    + constructor; [assumption|]. now constructor.
    + inversion Hs; subst. constructor; [now apply IH|].
      apply insert_row_hd; [now apply not_leb_leb | assumption].
Qed.

Lemma insertion_sort_perm (l : list observation) :
  Permutation l (insertion_sort l).
Proof.
  induction l as [|o l IH]; simpl; [reflexivity|].
  etransitivity; [apply perm_skip, IH | apply insert_row_perm].
Qed.

Lemma insertion_sort_sorted (l : list observation) :
  Sorted date_le (insertion_sort l).
Proof.
  induction l as [|o l IH]; simpl; [constructor | now apply insert_row_sorted].
Qed.

Lemma infer_float64_length (cells : list scalar) :
  List.length (infer_float64 cells) = List.length cells.
Proof.
  unfold infer_float64. destruct (existsb is_str cells); [reflexivity|].
  destruct (orb _ _); [apply length_map | reflexivity].
Qed.

Definition stable_sort : sorter :=
  {| sort_rows := insertion_sort;
     astype := infer_float64;
     astype_length := infer_float64_length;
     sort_rows_perm := fun l _ => insertion_sort_perm l;
     sort_rows_sorted := fun l _ => insertion_sort_sorted l |}.

(** * Properties *)

(** ** Lists and results *)

#[local] Arguments String.eqb : simpl never.
#[local] Arguments has_column : simpl never.

Lemma rbind_ok {A B : Type} (r : result A) (k : A -> result B) (b : B) :
  rbind r k = Ok b -> exists a, r = Ok a /\ k a = Ok b.
Proof. destruct r as [a|e]; simpl; [eauto | discriminate]. Qed.

Ltac rbind_inv H :=
  let a := fresh "a" in
  let Ha := fresh "Ha" in
  apply rbind_ok in H; destruct H as (a & Ha & H).

Lemma mask_filter {A : Type} (p : A -> bool) (l : list A) :
  map fst (filter snd (combine l (map p l))) = filter p l.
Proof.
  induction l as [|a l IH]; simpl; [reflexivity|].
  destruct (p a); simpl; now rewrite IH.
Qed.

Lemma Forall2_nth_error_r {A B : Type} (R : A -> B -> Prop) (l1 : list A)
    (l2 : list B) (i : nat) (b : B) :
  Forall2 R l1 l2 -> nth_error l2 i = Some b ->
  exists a, nth_error l1 i = Some a /\ R a b.
Proof.
  intros HF. revert i. induction HF as [|a0 b0 l1 l2 HR HF IH]; intros i Hi.
  - destruct i; discriminate.
  - destruct i as [|i]; simpl in *.
    + injection Hi as ->. eauto.
    + now apply IH.
Qed.

Lemma Forall2_nth_error_l {A B : Type} (R : A -> B -> Prop) (l1 : list A)
    (l2 : list B) (i : nat) (a : A) :
  Forall2 R l1 l2 -> nth_error l1 i = Some a ->
  exists b, nth_error l2 i = Some b /\ R a b.
Proof.
  intros HF. revert i. induction HF as [|a0 b0 l1 l2 HR HF IH]; intros i Hi.
  - destruct i; discriminate.
  - destruct i as [|i]; simpl in *.
    + injection Hi as ->. eauto.
    + now apply IH.
Qed.

Lemma Forall2_In_r {A B : Type} (R : A -> B -> Prop) (l1 : list A)
    (l2 : list B) (b : B) :
  Forall2 R l1 l2 -> In b l2 -> exists a, In a l1 /\ R a b.
Proof.
  induction 1 as [|a0 b0 l1 l2 HR _ IH]; simpl; [contradiction|].
  intros [<-|Hb]; [eauto|]. destruct (IH Hb) as (a & Ha & Hab). eauto.
Qed.

Lemma Forall2_In_l {A B : Type} (R : A -> B -> Prop) (l1 : list A)
    (l2 : list B) (a : A) :
  Forall2 R l1 l2 -> In a l1 -> exists b, In b l2 /\ R a b.
Proof.
  induction 1 as [|a0 b0 l1 l2 HR _ IH]; simpl; [contradiction|].
  intros [<-|Ha]; [eauto|]. destruct (IH Ha) as (b & Hb & Hab). eauto.
Qed.

Lemma nth_error_combine_seq {A : Type} (l : list A) (start i j : nat) (a : A) :
  nth_error (combine (seq start (List.length l)) l) i = Some (j, a) ->
  j = start + i /\ nth_error l i = Some a.
Proof.
  revert start i. induction l as [|b l IH]; intros start i Hi; simpl in Hi.
  - destruct i; discriminate.
  - destruct i as [|i]; simpl in *.
    + injection Hi as <- <-. split; [lia | reflexivity].
    + apply IH in Hi. destruct Hi as [-> Hi]. split; [lia | assumption].
Qed.

Lemma nth_error_enumerate {A : Type} (l : list A) (i j : nat) (a : A) :
  nth_error (enumerate l) i = Some (j, a) -> j = i /\ nth_error l i = Some a.
Proof. intros H. now apply nth_error_combine_seq in H. Qed.

Lemma combine_seq_nth_error {A : Type} (l : list A) (start i : nat) (a : A) :
  nth_error l i = Some a ->
  nth_error (combine (seq start (List.length l)) l) i = Some (start + i, a).
Proof.
  revert start i. induction l as [|b l IH]; intros start i Hi.
  - destruct i; discriminate.
  - destruct i as [|i]; simpl in *.
    + injection Hi as ->. now rewrite Nat.add_0_r.
    + rewrite (IH _ _ Hi). f_equal. f_equal. lia.
Qed.

Lemma enumerate_nth_error {A : Type} (l : list A) (i : nat) (a : A) :
  nth_error l i = Some a -> nth_error (enumerate l) i = Some (i, a).
Proof. intros H. apply (combine_seq_nth_error l 0) in H. exact H. Qed.

(** ** pandas operations in closed form *)

Lemma isin_year_in (years : list string) (l : list observation) :
  isin (map date_cell l) years = map (year_in years) l.
Proof. unfold isin, year_in. now rewrite map_map. Qed.

Lemma select_years_ok (df df' : DataFrame) (years : list string) :
  select_years df years = Ok df' ->
  has_column "date" df = true /\
  columns df' = columns df /\
  rows df' = filter (year_in years) (rows df).
Proof.
  unfold select_years, getitem_column.
  destruct (has_column "date" df); simpl; [|discriminate].
  intros H. injection H as <-. simpl.
  now rewrite isin_year_in, mask_filter.
Qed.

Lemma select_years_total (df : DataFrame) (years : list string) :
  has_column "date" df = true ->
  select_years df years =
  Ok {| columns := columns df; rows := filter (year_in years) (rows df) |}.
Proof.
  intros H. unfold select_years, getitem_column. rewrite H. simpl.
  unfold loc. now rewrite isin_year_in, mask_filter.
Qed.

Lemma select_country_eq (df : DataFrame) (country : pyval) :
  select_country df country =
  if has_column "country" df
  then Ok {| columns := columns df;
             rows := filter (of_country country) (rows df) |}
  else Raise (KeyError "country").
Proof.
  unfold select_country, getitem_column.
  destruct (has_column "country" df); simpl; [|reflexivity].
  unfold loc, eq_mask. rewrite map_map.
  now rewrite (mask_filter (of_country country)).
Qed.

Lemma has_column_rows (key : string) (cols : list string)
    (r1 r2 : list observation) :
  has_column key {| columns := cols; rows := r1 |} =
  has_column key {| columns := cols; rows := r2 |}.
Proof. reflexivity. Qed.

Lemma x_y_val_ok (df : DataFrame) (country : pyval)
    (xy : list scalar * list scalar) :
  x_y_val df country = Ok xy ->
  xy = (map date_cell (filter (of_country country) (rows df)),
        map value_cell (filter (of_country country) (rows df))).
Proof.
  unfold x_y_val. rewrite select_country_eq.
  destruct (has_column "country" df); simpl; [|discriminate].
  unfold getattr_column.
  destruct (has_column "date" _); simpl; [|discriminate].
  destruct (has_column "value" _); simpl; [|discriminate].
  congruence.
Qed.

Lemma x_y_val_total (df : DataFrame) (country : pyval) :
  has_column "country" df = true ->
  has_column "date" df = true ->
  has_column "value" df = true ->
  x_y_val df country =
  Ok (map date_cell (filter (of_country country) (rows df)),
      map value_cell (filter (of_country country) (rows df))).
Proof.
  intros Hc Hd Hv. unfold x_y_val. rewrite select_country_eq, Hc. simpl.
  unfold getattr_column.
  rewrite (has_column_rows "date" _ _ (rows df)).
  rewrite (has_column_rows "value" _ _ (rows df)).
  destruct df as [cols rs]. simpl in *. now rewrite Hd, Hv.
Qed.

Lemma for_countries_ok (df : DataFrame)
    (mk : list scalar -> list scalar -> pyval -> trace)
    (countrylist : list pyval) (graph : list trace) :
  for_countries df mk countrylist = Ok graph ->
  graph = map (series mk (rows df)) countrylist.
Proof.
  revert graph. induction countrylist as [|c cl IH]; simpl; intros graph H.
  - now injection H as <-.
  - rbind_inv H. rbind_inv H. injection H as <-.
    apply x_y_val_ok in Ha. subst a. simpl.
    now rewrite (IH a0 Ha0).
Qed.

Lemma for_countries_total (df : DataFrame)
    (mk : list scalar -> list scalar -> pyval -> trace)
    (countrylist : list pyval) :
  has_column "country" df = true ->
  has_column "date" df = true ->
  has_column "value" df = true ->
  for_countries df mk countrylist = Ok (map (series mk (rows df)) countrylist).
Proof.
  intros Hc Hd Hv. induction countrylist as [|c cl IH]; simpl; [reflexivity|].
  rewrite (x_y_val_total df c Hc Hd Hv). simpl. now rewrite IH.
Qed.

(** ** Flattening *)

Lemma flatten_ok (o o' : observation) :
  flatten o = Ok o' ->
  flattened o' /\ obs_date o' = obs_date o /\ obs_value o' = obs_value o /\
  exists c, obs_country o = Some c /\
            exists t, subscript_value c = Ok t /\
                      obs_country o' = Some (Scalar (SStr t)).
Proof.
  unfold flatten. intros H.
  apply rbind_ok in H. destruct H as (ind & _ & H).
  apply rbind_ok in H. destruct H as (s & _ & H).
  apply rbind_ok in H. destruct H as (c & Hc & H).
  apply rbind_ok in H. destruct H as (t & Ht & H).
  injection H as <-. simpl in *.
  destruct (obs_country o) as [c0|]; simpl in Hc; [|discriminate].
  injection Hc as ->.
  split; [unfold flattened; simpl; eauto|].
  split; [reflexivity|]. split; [reflexivity|].
  exists c. split; [reflexivity|]. exists t. now split.
Qed.

Lemma flatten_flattened (o : observation) :
  flattened o -> flatten o = Raise TypeError.
Proof.
  intros [[s Hs] _]. unfold flatten. now rewrite Hs.
Qed.

Lemma flatten_all_ok (l r : list observation) :
  flatten_all l = Ok r ->
  Forall flattened r /\
  Forall2 (fun o o' => flatten o = Ok o') l r.
Proof.
  revert r. induction l as [|o l IH]; simpl; intros r H.
  - injection H as <-. split; constructor.
  - apply rbind_ok in H. destruct H as (o' & Ho & H).
    apply rbind_ok in H. destruct H as (r' & Hr & H).
    injection H as <-. destruct (IH _ Hr) as [IH1 IH2].
    split; constructor; try assumption.
    now apply flatten_ok in Ho.
Qed.

(** Flattening a list twice only works when the list is empty. *)
Lemma flatten_all_stale (l r : list observation) :
  Forall flattened l -> flatten_all l = Ok r -> l = [] /\ r = [].
Proof.
  intros HF H. destruct l as [|o l]; simpl in H.
  - injection H as <-. now split.
  - inversion HF; subst. rewrite flatten_flattened in H by assumption.
    discriminate.
Qed.

Lemma flatten_well_formed (o : observation) :
  well_formed o = true ->
  exists o', flatten o = Ok o' /\ flattened o' /\
             is_some (obs_date o') = true /\ is_some (obs_value o') = true.
Proof.
  destruct o as [oi oc od ov]. unfold well_formed, flatten. simpl.
  destruct oi as [[v|i]|]; try discriminate.
  destruct oc as [[v|c]|]; try discriminate.
  simpl.
  intros H. apply andb_prop in H. destruct H as [H1 H2].
  apply andb_prop in H1. destruct H1 as [Hi Hc].
  apply andb_prop in H2. destruct H2 as [Hd Hv].
  rewrite existsb_exists in Hi, Hc.
  destruct Hi as (kv & Hin & Hk). destruct Hc as (kv' & Hin' & Hk').
  destruct (find (fun kv => fst kv =? "value") i) as [kvi|] eqn:Fi.
  2:{ apply (find_none _ _ Fi) in Hin. congruence. }
  destruct (find (fun kv => fst kv =? "value") c) as [kvc|] eqn:Fc.
  2:{ apply (find_none _ _ Fc) in Hin'. congruence. }
  simpl. eexists. split; [reflexivity|].
  unfold flattened. simpl. repeat split; eauto.
Qed.

Lemma flatten_all_well_formed (l : list observation) :
  forallb well_formed l = true ->
  exists r, flatten_all l = Ok r /\ Forall full_row r /\
            List.length r = List.length l.
Proof.
  induction l as [|o l IH]; simpl; intros H.
  - exists []. repeat split; constructor.
  - apply andb_prop in H. destruct H as [Ho Hl].
    destruct (flatten_well_formed o Ho) as (o' & Eo & Fo).
    destruct (IH Hl) as (r & Er & Fr & Lr).
    exists (o' :: r). rewrite Eo, Er. simpl.
    repeat split; [now constructor | now rewrite Lr].
Qed.

(** ** Frames *)

Lemma has_column_pd (f : list scalar -> list scalar) (key : string)
    (records : list observation) :
  In key ["indicator"; "country"; "date"; "value"] ->
  has_column key (pd_DataFrame f records) = existsb (has_key key) records.
Proof.
  intros Hk. unfold has_column, pd_DataFrame. cbn [columns filter].
  destruct (existsb (has_key "indicator") records) eqn:Ei,
           (existsb (has_key "country") records) eqn:Ec,
           (existsb (has_key "date") records) eqn:Ed,
           (existsb (has_key "value") records) eqn:Ev;
    simpl in Hk;
    repeat (destruct Hk as [<-|Hk]; [now rewrite ?Ei, ?Ec, ?Ed, ?Ev|]);
    contradiction.
Qed.

Lemma has_column_nil (f : list scalar -> list scalar) (key : string) :
  has_column key (pd_DataFrame f []) = false.
Proof. reflexivity. Qed.

Lemma has_column_full (f : list scalar -> list scalar) (key : string)
    (records : list observation) :
  In key ["country"; "date"; "value"] ->
  records <> [] -> Forall full_row records ->
  has_column key (pd_DataFrame f records) = true.
Proof.
  intros Hk Hne HF. rewrite has_column_pd by (simpl in *; tauto).
  destruct records as [|o l]; [congruence|].
  inversion HF as [|? ? [[_ [t Ht]] [Hd Hv]] _]; subst.
  simpl in Hk. cbn [existsb].
  destruct Hk as [<-|[<-|[<-|[]]]]; apply orb_true_iff; left.
  - change (is_some (obs_country o) = true). now rewrite Ht.
  - exact Hd.
  - exact Hv.
Qed.

Lemma year_in_date_is_str (years : list string) (o : observation) :
  year_in years o = true -> date_is_str o = true.
Proof.
  unfold year_in, date_is_str, date_cell.
  destruct (obs_date o) as [[| |s|n|f]|]; congruence.
Qed.

Lemma filter_year_in_str (years : list string) (l : list observation) :
  forallb date_is_str (filter (year_in years) l) = true.
Proof.
  apply forallb_forall. intros o Ho. apply filter_In in Ho.
  now apply (year_in_date_is_str years).
Qed.

Lemma with_values_retyped (data : list observation) (cells : list scalar) :
  List.length cells = List.length data ->
  Forall2 (fun o o' => retyped o o' /\ is_some (obs_value o') = true)
          data (with_values data cells).
Proof.
  unfold with_values. revert cells.
  induction data as [|o data IH]; intros [|c cells] H; simpl in *;
    try discriminate; constructor.
  - unfold retyped. simpl. auto.
  - apply IH. now injection H.
Qed.

Lemma Forall2_refl {A : Type} (R : A -> A -> Prop) (l : list A) :
  (forall a, R a a) -> Forall2 R l l.
Proof. intros H. induction l; constructor; auto. Qed.

Lemma retyped_year_in (years : list string) (o o' : observation) :
  retyped o o' -> year_in years o' = year_in years o.
Proof. intros (_ & _ & Hd). unfold year_in, date_cell. now rewrite Hd. Qed.

Lemma retyped_country (o o' : observation) :
  retyped o o' -> country_cell o' = country_cell o.
Proof. intros (_ & Hc & _). unfold country_cell. now rewrite Hc. Qed.

Lemma retyped_full (o o' : observation) :
  retyped o o' -> is_some (obs_value o') = true -> full_row o -> full_row o'.
Proof.
  intros (Hi & Hc & Hd) Hv ((Fi & Fc) & Fd & _).
  unfold full_row, flattened. rewrite Hi, Hc, Hd. auto.
Qed.

Section Charts.

Variable sort_values : sorter.

(** The frame has the records, in their order, with values that may be of
    another type. *)
Lemma frame_retyped (records : list observation) :
  Forall2 retyped records (frame sort_values records).
Proof.
  unfold frame, pd_DataFrame. cbn [rows].
  destruct (existsb (has_key "value") records).
  - eapply Forall2_impl;
      [|apply with_values_retyped; now rewrite astype_length, length_map].
    intros o o' [H _]. exact H.
  - apply Forall2_refl. intros o. unfold retyped. auto.
Qed.

Lemma frame_full (records : list observation) :
  Forall full_row records -> Forall full_row (frame sort_values records).
Proof.
  intros HF. unfold frame, pd_DataFrame. cbn [rows].
  destruct (existsb (has_key "value") records); [|assumption].
  pose proof (with_values_retyped records
                (astype sort_values (map value_cell records))) as H2.
  rewrite astype_length, length_map in H2. specialize (H2 eq_refl).
  apply Forall_forall. intros o' Ho'.
  destruct (Forall2_In_r _ _ _ _ H2 Ho') as (o & Ho & Hr & Hv).
  apply (retyped_full o o' Hr Hv).
  now apply (proj1 (Forall_forall _ _) HF).
Qed.

Lemma chart_rows_perm (records : list observation) (years : list string) :
  Permutation (filter (year_in years) (frame sort_values records))
              (chart_rows sort_values records years).
Proof. apply sort_rows_perm, filter_year_in_str. Qed.

Lemma chart_rows_sorted (records : list observation) (years : list string) :
  Sorted date_le (chart_rows sort_values records years).
Proof. apply sort_rows_sorted, filter_year_in_str. Qed.

Lemma chart_rows_In (records : list observation) (years : list string)
    (o : observation) :
  In o (chart_rows sort_values records years) <->
  In o (frame sort_values records) /\ year_in years o = true.
Proof.
  rewrite <- filter_In. split; apply Permutation_in.
  - symmetry. apply chart_rows_perm.
  - apply chart_rows_perm.
Qed.

(** A row of a chart is a record of one of its years, but for the type of
    its value, and every such record gives a row. *)
Lemma chart_rows_record (records : list observation) (years : list string)
    (o' : observation) :
  In o' (chart_rows sort_values records years) ->
  exists o, In o records /\ retyped o o' /\ year_in years o = true.
Proof.
  intros H. apply chart_rows_In in H. destruct H as [Hin Hy].
  destruct (Forall2_In_r _ _ _ _ (frame_retyped records) Hin)
    as (o & Ho & Hr).
  exists o. repeat split; try assumption; try apply Hr.
  now rewrite <- (retyped_year_in years o o' Hr).
Qed.

Lemma record_chart_rows (records : list observation) (years : list string)
    (o : observation) :
  In o records -> year_in years o = true ->
  exists o', In o' (chart_rows sort_values records years) /\ retyped o o'.
Proof.
  intros Hin Hy.
  destruct (Forall2_In_l _ _ _ _ (frame_retyped records) Hin)
    as (o' & Ho' & Hr).
  exists o'. split; [|assumption]. apply chart_rows_In.
  split; [assumption|]. now rewrite (retyped_year_in years o o' Hr).
Qed.

Lemma prepare_ok (frames : list (list observation)) (i : nat)
    (years : list string) (df : DataFrame) :
  prepare sort_values frames i years = Ok df ->
  exists records,
    nth_error frames i = Some records /\ records <> [] /\
    columns df = columns (pd_DataFrame (astype sort_values) records) /\
    rows df = chart_rows sort_values records years.
Proof.
  unfold prepare, index. intros H.
  destruct (nth_error frames i) as [records|]; simpl in H; [|discriminate].
  apply rbind_ok in H. destruct H as (df1 & H1 & H).
  apply select_years_ok in H1. destruct H1 as (Hd & Hc & Hr).
  unfold sort_values_date in H.
  destruct (has_column "date" df1); [|discriminate].
  injection H as <-. exists records. simpl.
  repeat split; [| assumption | now rewrite Hr].
  intros ->. now rewrite has_column_nil in Hd.
Qed.

Lemma prepare_total (frames : list (list observation)) (i : nat)
    (years : list string) (records : list observation) :
  nth_error frames i = Some records ->
  has_column "date" (pd_DataFrame (astype sort_values) records) = true ->
  prepare sort_values frames i years =
  Ok {| columns := columns (pd_DataFrame (astype sort_values) records);
        rows := chart_rows sort_values records years |}.
Proof.
  intros Hn Hd. unfold prepare, index. rewrite Hn. simpl.
  rewrite select_years_total by assumption. simpl.
  unfold sort_values_date.
  match goal with
  | |- context [has_column "date" ?d] =>
      replace (has_column "date" d) with true by (symmetry; exact Hd)
  end.
  reflexivity.
Qed.

Lemma countrylist_of_ok (df : DataFrame) (countrylist : list pyval) :
  countrylist_of df = Ok countrylist ->
  countrylist = unique_from [] (map country_cell (rows df)).
Proof.
  unfold countrylist_of, getattr_column, unique.
  destruct (has_column "country" df); simpl; [|discriminate].
  destruct (forallb hashable _); congruence.
Qed.

Lemma assemble_ok (frames : list (list observation)) (figs : list figure) :
  assemble sort_values frames = Ok figs ->
  exists records0 records1 records3,
    nth_error frames 0 = Some records0 /\
    nth_error frames 1 = Some records1 /\
    nth_error frames 3 = Some records3 /\
    records0 <> [] /\ records1 <> [] /\ records3 <> [] /\
    figs = figures_of sort_values records0 records1 records3.
Proof.
  unfold assemble, df_one, df_two, df_three, df_four. intros H.
  apply rbind_ok in H. destruct H as (one & H1 & H).
  apply rbind_ok in H. destruct H as (cl & Hcl & H).
  apply rbind_ok in H. destruct H as (g1 & Hg1 & H).
  apply rbind_ok in H. destruct H as (two & H2 & H).
  apply rbind_ok in H. destruct H as (g2 & Hg2 & H).
  apply rbind_ok in H. destruct H as (three & H3 & H).
  apply rbind_ok in H. destruct H as (g3 & Hg3 & H).
  apply rbind_ok in H. destruct H as (four & H4 & H).
  apply rbind_ok in H. destruct H as (g4 & Hg4 & H).
  injection H as <-.
  apply prepare_ok in H1. destruct H1 as (r0 & N0 & E0 & _ & R0).
  apply prepare_ok in H2. destruct H2 as (r1 & N1 & E1 & _ & R1).
  apply prepare_ok in H3. destruct H3 as (r1' & N1' & _ & _ & R1').
  apply prepare_ok in H4. destruct H4 as (r3 & N3 & E3 & _ & R3).
  rewrite N1 in N1'. injection N1' as <-.
  apply countrylist_of_ok in Hcl.
  apply for_countries_ok in Hg1, Hg2, Hg3, Hg4.
  exists r0, r1, r3. repeat (split; [assumption|]).
  unfold figures_of, canonical_order. fold years_one years_two in *.
  subst. now rewrite R0, R1, R1', R3.
Qed.

Lemma chart_rows_full (records : list observation) (years : list string) :
  Forall full_row records ->
  Forall full_row (chart_rows sort_values records years).
Proof.
  intros HF. apply Forall_forall. intros o Ho.
  apply chart_rows_In in Ho. destruct Ho as [Ho _].
  now apply (proj1 (Forall_forall _ _) (frame_full records HF)).
Qed.

Lemma hashable_full (l : list observation) :
  Forall full_row l -> forallb hashable (map country_cell l) = true.
Proof.
  intros HF. apply forallb_forall. intros c Hc.
  apply in_map_iff in Hc. destruct Hc as (o & <- & Ho).
  apply (proj1 (Forall_forall _ _) HF) in Ho.
  destruct Ho as [[_ [t Ht]] _]. unfold country_cell. now rewrite Ht.
Qed.

Lemma assemble_total (frames : list (list observation))
    (records0 records1 records3 : list observation) :
  nth_error frames 0 = Some records0 ->
  nth_error frames 1 = Some records1 ->
  nth_error frames 3 = Some records3 ->
  records0 <> [] -> records1 <> [] -> records3 <> [] ->
  Forall full_row records0 -> Forall full_row records1 ->
  Forall full_row records3 ->
  assemble sort_values frames =
  Ok (figures_of sort_values records0 records1 records3).
Proof.
  intros N0 N1 N3 E0 E1 E3 F0 F1 F3.
  assert (C : forall key records, In key ["country"; "date"; "value"] ->
              records <> [] -> Forall full_row records ->
              forall r,
                has_column key
                  {| columns :=
                       columns (pd_DataFrame (astype sort_values) records);
                     rows := r |} = true).
  { intros key records Hk Hne HF r.
    rewrite (has_column_rows key _ _
               (rows (pd_DataFrame (astype sort_values) records))).
    now apply (has_column_full (astype sort_values) key records). }
  unfold assemble, df_one, df_two, df_three, df_four.
  rewrite (prepare_total frames 0 _ records0 N0)
    by (apply has_column_full; simpl; auto).
  rewrite (prepare_total frames 1 _ records1 N1)
    by (apply has_column_full; simpl; auto).
  rewrite (prepare_total frames 3 _ records3 N3)
    by (apply has_column_full; simpl; auto).
  cbn [rbind]. unfold countrylist_of, getattr_column.
  rewrite C by (simpl; auto). cbn [rbind rows]. unfold unique.
  rewrite hashable_full by now apply chart_rows_full.
  cbn [rbind].
  rewrite !for_countries_total by (apply C; simpl; auto).
  reflexivity.
Qed.

End Charts.

(** ** The first loop *)

Section Loop.

Variable http : collaborator.
Variable filter_str : string.

Lemma fetch_ok (s s' : locals) (step : nat * string) (h h' : heap) :
  fetch http filter_str s step h = (Ok s', h') ->
  data_inv s ->
  data_inv s' /\
  exists records,
    data_frames s' = data_frames s ++ [records] /\
    (records <> [] ->
     exists l, http (fst step) (build_url filter_str (snd step))
                 = Some (JRecords l) /\
               flatten_all l = Ok records).
Proof.
  unfold fetch, bind, try_except, requests_get_json1, print, ret, lift.
  intros H Hinv.
  destruct (http (fst step) (build_url filter_str (snd step)))
    as [[|l]|] eqn:Eh; simpl in H.
  - discriminate.
  - destruct (flatten_all l) as [records|e] eqn:El; [|discriminate].
    injection H as <- <-. split.
    + unfold data_inv. simpl. now apply flatten_all_ok in El.
    + exists records. split; [reflexivity|]. intros _. now exists l.
  - unfold data_inv in Hinv.
    destruct (data s) as [[|r]|]; simpl in H; try discriminate.
    destruct (flatten_all r) as [records|e] eqn:Er; [|discriminate].
    injection H as <- <-.
    destruct (flatten_all_stale r records Hinv Er) as [-> ->].
    split.
    + unfold data_inv. simpl. constructor.
    + exists []. split; [reflexivity|]. congruence.
Qed.

Lemma for_each_fetch_ok (steps : list (nat * string)) (s s' : locals)
    (h h' : heap) :
  for_each (fetch http filter_str) steps s h = (Ok s', h') ->
  data_inv s ->
  exists new,
    data_frames s' = data_frames s ++ new /\
    Forall2 (fun step records =>
               records <> [] ->
               exists l, http (fst step) (build_url filter_str (snd step))
                           = Some (JRecords l) /\
                         flatten_all l = Ok records) steps new.
Proof.
  revert s h. induction steps as [|step steps IH]; intros s h H Hinv.
  - simpl in H. injection H as <- <-. exists []. split.
    + now rewrite app_nil_r.
    + constructor.
  - simpl in H. unfold bind in H.
    destruct (fetch http filter_str s step h) as [[s1|e] h1] eqn:E1;
      [|discriminate].
    destruct (fetch_ok _ _ _ _ _ E1 Hinv) as (Hinv1 & records & Ed & Hr).
    destruct (IH _ _ H Hinv1) as (new & Ed' & HF).
    exists (records :: new). split.
    + rewrite Ed', Ed, <- app_assoc. reflexivity.
    + now constructor.
Qed.

Lemma fetch_total (s : locals) (step : nat * string) (h : heap) :
  answered http filter_str step = true ->
  exists records h',
    fetch http filter_str s step h =
    (Ok {| data := Some (JRecords records);
           data_frames := data_frames s ++ [records];
           urls := urls s ++ [build_url filter_str (snd step)] |}, h') /\
    records <> [] /\ Forall full_row records.
Proof.
  unfold answered. intros H.
  destruct (http (fst step) (build_url filter_str (snd step)))
    as [[|[|o l]]|] eqn:Eh; try discriminate.
  destruct (flatten_all_well_formed _ H) as (records & Er & Fr & Lr).
  unfold fetch, bind, try_except, requests_get_json1, print, ret, lift.
  rewrite Eh. cbn [flatten_data]. rewrite Er.
  eexists. eexists. split; [reflexivity|]. split; [|assumption].
  intros ->. discriminate.
Qed.

Lemma for_each_fetch_total (steps : list (nat * string)) (s : locals)
    (h : heap) :
  forallb (answered http filter_str) steps = true ->
  exists s' h' new,
    for_each (fetch http filter_str) steps s h = (Ok s', h') /\
    data_frames s' = data_frames s ++ new /\
    List.length new = List.length steps /\
    Forall (fun records => records <> [] /\ Forall full_row records) new.
Proof.
  revert s h. induction steps as [|step steps IH]; intros s h H.
  - exists s, h, []. simpl. rewrite app_nil_r. repeat split. constructor.
  - simpl in H. apply andb_prop in H. destruct H as [H1 H2].
    destruct (fetch_total s step h H1) as (records & h1 & E1 & Hne & HF).
    destruct (IH {| data := Some (JRecords records);
                    data_frames := data_frames s ++ [records];
                    urls := urls s ++ [build_url filter_str (snd step)] |}
                 h1 H2) as (s' & h' & new & E & Ed & Hl & Hall).
    exists s', h', (records :: new). simpl. unfold bind. rewrite E1.
    split; [exact E|]. split.
    + rewrite Ed. simpl. now rewrite <- app_assoc.
    + split; [now rewrite Hl | now constructor].
Qed.

End Loop.

(** ** The heap *)

Lemma same_args_refl (h : heap) : same_args h h.
Proof. now split. Qed.

Lemma same_args_sym (h1 h2 : heap) : same_args h1 h2 -> same_args h2 h1.
Proof. intros [H1 H2]. now split. Qed.

Lemma same_args_trans (h1 h2 h3 : heap) :
  same_args h1 h2 -> same_args h2 h3 -> same_args h1 h3.
Proof. intros [H1 H2] [H3 H4]. split; congruence. Qed.

Lemma respects_ret {A : Type} (a : A) : respects (ret a).
Proof. intros h1 h2 S. simpl. auto using same_args_refl. Qed.

Lemma respects_lift {A : Type} (r : result A) : respects (lift r).
Proof. intros h1 h2 S. simpl. auto using same_args_refl. Qed.

Lemma respects_print (line : string) : respects (print line).
Proof.
  intros h1 h2 [S1 S2]. unfold print, same_args. simpl. repeat split; assumption.
Qed.

Lemma respects_read_countries : respects read_countries.
Proof.
  intros h1 h2 [S1 S2]. unfold read_countries, same_args. simpl.
  repeat split; congruence.
Qed.

Lemma respects_read_indicators : respects read_indicators.
Proof.
  intros h1 h2 [S1 S2]. unfold read_indicators, same_args. simpl.
  repeat split; congruence.
Qed.

Lemma respects_bind {A B : Type} (m : M A) (k : A -> M B) :
  respects m -> (forall a, respects (k a)) -> respects (bind m k).
Proof.
  intros Hm Hk h1 h2 S. unfold bind.
  destruct (Hm h1 h2 S) as (E & S' & F).
  destruct (m h1) as [r1 g1], (m h2) as [r2 g2]. simpl in *. subst r2.
  destruct r1 as [a|e]; simpl; [|auto].
  destruct (Hk a g1 g2 S') as (E' & S'' & F').
  repeat split; try assumption; try apply S''.
  - destruct F, F'. congruence.
  - destruct F, F'. congruence.
Qed.

Lemma respects_try_except {A : Type} (body handler : M A) :
  respects body -> respects handler -> respects (try_except body handler).
Proof.
  intros Hb Hh h1 h2 S. unfold try_except.
  destruct (Hb h1 h2 S) as (E & S' & F).
  destruct (body h1) as [r1 g1], (body h2) as [r2 g2]. simpl in *. subst r2.
  destruct r1 as [a|e]; simpl; [auto|].
  destruct (Hh g1 g2 S') as (E' & S'' & F').
  repeat split; try assumption; try apply S''.
  - destruct F, F'. congruence.
  - destruct F, F'. congruence.
Qed.

Lemma respects_for_each {A S : Type} (body : S -> A -> M S) (l : list A) :
  (forall s a, respects (body s a)) -> forall s, respects (for_each body l s).
Proof.
  intros Hb. induction l as [|a l IH]; intros s; simpl.
  - apply respects_ret.
  - apply respects_bind; [apply Hb | exact IH].
Qed.

Create HintDb respects.
#[local] Hint Resolve respects_ret respects_lift respects_print
  respects_read_countries respects_read_indicators : respects.

Section Build.

Variable sort_values : sorter.
Variable http : collaborator.

Lemma respects_requests_get_json1 (i : nat) (url : string) :
  respects (requests_get_json1 http i url).
Proof.
  intros h1 h2 [S1 S2]. unfold requests_get_json1, same_args. simpl.
  repeat split; assumption.
Qed.

Lemma respects_fetch (filter_str : string) (s : locals) (step : nat * string) :
  respects (fetch http filter_str s step).
Proof.
  unfold fetch.
  apply respects_bind.
  - apply respects_try_except.
    + apply respects_bind; [apply respects_requests_get_json1|].
      intros d. auto with respects.
    + apply respects_bind; auto with respects.
  - intros d. apply respects_bind; auto with respects.
Qed.

Lemma respects_return_figures : respects (return_figures sort_values http).
Proof.
  unfold return_figures.
  apply respects_bind; [auto with respects|]. intros countries.
  apply respects_bind; [auto with respects|]. intros indicators.
  apply respects_bind; [|auto with respects].
  apply respects_for_each. intros s step. apply respects_fetch.
Qed.

(** A call that returns has read the records of the indicators at
    positions 0, 1 and 3 off the collaborator, and its figures are those of
    the closed form. *)
Lemma return_figures_ok (h h' : heap) (figs : list figure) :
  return_figures sort_values http h = (Ok figs, h') ->
  exists records0 records1 records3,
    source http h 0 records0 /\
    source http h 1 records1 /\
    source http h 3 records3 /\
    figs = figures_of sort_values records0 records1 records3.
Proof.
  unfold return_figures, bind, read_countries, read_indicators, lift.
  intros H.
  destruct (for_each _ _ _ h) as [[s|e] h1] eqn:E; [|discriminate].
  injection H as H _.
  apply assemble_ok in H.
  destruct H as (r0 & r1 & r3 & N0 & N1 & N3 & E0 & E1 & E3 & ->).
  apply for_each_fetch_ok in E; [|exact I].
  destruct E as (new & Ed & HF). simpl in Ed. rewrite Ed in *.
  assert (S : forall i r, nth_error new i = Some r -> r <> [] ->
                          source http h i r).
  { intros i r Hn Hne.
    destruct (Forall2_nth_error_r _ _ _ _ _ HF Hn) as ([j code] & Hs & Hr).
    apply nth_error_enumerate in Hs. destruct Hs as [-> Hs].
    destruct (Hr Hne) as (l & Hl & Fl).
    exists code, l. auto. }
  exists r0, r1, r3. auto.
Qed.

(** A call whose requests are all answered returns the figures of the
    closed form. *)
Lemma return_figures_total (h : heap) :
  4 <= List.length (indicators_obj h) ->
  forallb (answered http (country_filter (countries_obj h)))
          (enumerate (indicators_obj h)) = true ->
  exists records0 records1 records3 h',
    return_figures sort_values http h =
    (Ok (figures_of sort_values records0 records1 records3), h').
Proof.
  intros Hlen Hans.
  destruct (for_each_fetch_total http _ _
              {| data := None; data_frames := []; urls := [] |} h Hans)
    as (s & h1 & new & E & Ed & Hl & Hall).
  simpl in Ed.
  assert (Hn : List.length new = List.length (indicators_obj h)).
  { rewrite Hl. unfold enumerate. rewrite length_combine, length_seq. lia. }
  assert (G : forall i, i < 4 -> exists r, nth_error new i = Some r /\
                                          r <> [] /\ Forall full_row r).
  { intros i Hi. destruct (nth_error new i) as [r|] eqn:En.
    - exists r. split; [reflexivity|].
      apply nth_error_In in En.
      now apply (proj1 (Forall_forall _ _) Hall).
    - apply nth_error_None in En. lia. }
  destruct (G 0) as (r0 & N0 & E0 & F0); [lia|].
  destruct (G 1) as (r1 & N1 & E1 & F1); [lia|].
  destruct (G 3) as (r3 & N3 & E3 & F3); [lia|].
  exists r0, r1, r3, h1.
  unfold return_figures, bind, read_countries, read_indicators, lift.
  rewrite E, Ed.
  now rewrite (assemble_total sort_values new r0 r1 r3).
Qed.

End Build.

(** ** What a call sends and prints *)

Lemma map_snd_enumerate {A : Type} (l : list A) : map snd (enumerate l) = l.
Proof.
  unfold enumerate. generalize 0.
  induction l as [|a l IH]; intros start; simpl; [reflexivity|].
  now rewrite IH.
Qed.

Section Log.

Variable http : collaborator.
Variable filter_str : string.

Lemma fetch_requested (s : locals) (step : nat * string) (h : heap) :
  requested (snd (fetch http filter_str s step h)) =
  requested h ++ [build_url filter_str (snd step)].
Proof.
  unfold fetch, bind, try_except, requests_get_json1, print, ret, lift.
  destruct (http (fst step) (build_url filter_str (snd step))) as [[|l]|];
    simpl.
  - reflexivity.
  - destruct (flatten_all l); reflexivity.
  - destruct (data s) as [[|r]|]; simpl; try reflexivity.
    destruct (flatten_all r); reflexivity.
Qed.

Lemma for_each_requested (steps : list (nat * string)) (s : locals) (h : heap) :
  exists k,
    k <= List.length steps /\
    requested (snd (for_each (fetch http filter_str) steps s h)) =
    requested h ++ map (fun step => build_url filter_str (snd step))
                       (firstn k steps) /\
    (forall s', fst (for_each (fetch http filter_str) steps s h) = Ok s' ->
                k = List.length steps).
Proof.
  revert s h. induction steps as [|step steps IH]; intros s h.
  - exists 0. simpl. rewrite app_nil_r. auto.
  - simpl. unfold bind.
    pose proof (fetch_requested s step h) as R.
    destruct (fetch http filter_str s step h) as [[s1|e] h1]; simpl in R.
    + destruct (IH s1 h1) as (k & Hk & Hr & Hok).
      exists (S k). split; [lia|]. split.
      * rewrite Hr, R, <- app_assoc. reflexivity.
      * intros s' Hs'. now rewrite (Hok s' Hs').
    + exists 1. split; [lia|]. split.
      * simpl. now rewrite R.
      * discriminate.
Qed.

(** A request that fails after one that was answered with observations ends
    the call: the observations are flattened a second time. *)
Lemma fetch_stale (s : locals) (step : nat * string) (h : heap)
    (o : observation) (r : list observation) :
  data s = Some (JRecords (o :: r)) -> flattened o ->
  http (fst step) (build_url filter_str (snd step)) = None ->
  fetch http filter_str s step h =
  (Raise TypeError,
   {| countries_obj := countries_obj h;
      indicators_obj := indicators_obj h;
      stdout := stdout h ++ [("could not load data for " ++ snd step)%string];
      requested := requested h ++ [build_url filter_str (snd step)] |}).
Proof.
  intros Hd Ho Hh.
  unfold fetch, bind, try_except, requests_get_json1, print, ret, lift.
  rewrite Hh, Hd. simpl. now rewrite flatten_flattened.
Qed.

Lemma fetch_answered (s : locals) (step : nat * string) (h : heap) :
  answered http filter_str step = true ->
  exists o r,
    flattened o /\
    fetch http filter_str s step h =
    (Ok {| data := Some (JRecords (o :: r));
           data_frames := data_frames s ++ [o :: r];
           urls := urls s ++ [build_url filter_str (snd step)] |},
     {| countries_obj := countries_obj h;
        indicators_obj := indicators_obj h;
        stdout := stdout h;
        requested := requested h ++ [build_url filter_str (snd step)] |}).
Proof.
  unfold answered. intros H.
  destruct (http (fst step) (build_url filter_str (snd step)))
    as [[|[|o l]]|] eqn:Eh; try discriminate.
  destruct (flatten_all_well_formed _ H) as (records & Er & Fr & Lr).
  destruct records as [|o' r']; [discriminate|].
  exists o', r'. split.
  - inversion Fr as [|? ? [Hf _] _]. exact Hf.
  - unfold fetch, bind, try_except, requests_get_json1, print, ret, lift.
    rewrite Eh. cbn [flatten_data]. now rewrite Er.
Qed.

End Log.

(** ** The distinct cells *)

Lemma seen_spec (seen : list pyval) (c : pyval) :
  existsb (fun s => if pyval_eq_dec s c then true else false) seen = true <->
  In c seen.
Proof.
  rewrite existsb_exists. split.
  - intros (s & Hs & E). destruct (pyval_eq_dec s c); [now subst | discriminate].
  - intros H. exists c. split; [assumption|].
    destruct (pyval_eq_dec c c); congruence.
Qed.

Lemma unique_from_In (seen cells : list pyval) (c : pyval) :
  In c (unique_from seen cells) <-> In c cells /\ ~ In c seen.
Proof.
  revert seen. induction cells as [|d cells IH]; intros seen; simpl.
  - tauto.
  - destruct (existsb _ seen) eqn:E.
    + apply seen_spec in E. rewrite IH. split.
      * intros [H1 H2]. auto.
      * intros [[->|H1] H2]; [contradiction | auto].
    + assert (Hd : ~ In d seen).
      { intros H. apply seen_spec in H. congruence. }
      simpl. rewrite IH. simpl. split.
      * intros [->|[H1 H2]]; [auto | split; [auto | tauto]].
      * intros [[->|H1] H2]; [auto|].
        destruct (pyval_eq_dec d c) as [->|N]; [auto|].
        right. split; [assumption|]. intros [->|H]; auto.
Qed.

Lemma unique_from_NoDup (seen cells : list pyval) :
  NoDup (unique_from seen cells).
Proof.
  revert seen. induction cells as [|d cells IH]; intros seen; simpl.
  - constructor.
  - destruct (existsb _ seen); [apply IH|].
    constructor; [|apply IH].
    rewrite unique_from_In. simpl. tauto.
Qed.

Lemma unique_from_ext (seen1 seen2 cells : list pyval) :
  (forall c, In c seen1 <-> In c seen2) ->
  unique_from seen1 cells = unique_from seen2 cells.
Proof.
  revert seen1 seen2. induction cells as [|d cells IH]; intros s1 s2 H; simpl.
  - reflexivity.
  - assert (E : existsb (fun s => if pyval_eq_dec s d then true else false) s1
                = existsb (fun s => if pyval_eq_dec s d then true else false)
                    s2).
    { apply Bool.eq_true_iff_eq. rewrite !seen_spec. apply H. }
    rewrite E. destruct (existsb _ s2); [now apply IH|].
    f_equal. apply IH. intros c. simpl. rewrite H. tauto.
Qed.

Lemma unique_from_app (seen l1 l2 : list pyval) :
  unique_from seen (l1 ++ l2) =
  unique_from seen l1 ++ unique_from (l1 ++ seen) l2.
Proof.
  revert seen. induction l1 as [|x l1 IH]; intros seen; simpl.
  - reflexivity.
  - destruct (existsb _ seen) eqn:E.
    + apply seen_spec in E. rewrite IH. f_equal.
      apply unique_from_ext. intros c. simpl. rewrite !in_app_iff.
      split; [tauto|]. intros [->|H]; tauto.
    + simpl. f_equal. rewrite IH. f_equal.
      apply unique_from_ext. intros c. simpl. rewrite !in_app_iff. simpl.
      tauto.
Qed.

(** The distinct cells come in the order in which the cells are first seen:
    before a cell stand the distinct cells that come before its first
    occurrence. *)
Lemma unique_from_first_seen (cells before after : list pyval) (c : pyval) :
  cells = before ++ c :: after -> ~ In c before ->
  exists first rest,
    unique_from [] cells = first ++ c :: rest /\
    forall d, In d first <-> In d before.
Proof.
  intros -> Hc. rewrite unique_from_app. simpl.
  destruct (existsb _ (before ++ [])) eqn:E.
  - apply seen_spec in E. rewrite app_nil_r in E. contradiction.
  - eexists. eexists. split; [reflexivity|].
    intros d. rewrite unique_from_In. simpl. tauto.
Qed.

(** ** Traces in closed form *)

Lemma Permutation_filter {A : Type} (f : A -> bool) (l l' : list A) :
  Permutation l l' -> Permutation (filter f l) (filter f l').
Proof.
  induction 1 as [|x l l' _ IH|x y l|l l' l'' _ IH1 _ IH2]; simpl.
  - constructor.
  - destruct (f x); [now constructor | assumption].
  - destruct (f x), (f y); try reflexivity. apply perm_swap.
  - now transitivity (filter f l').
Qed.

Lemma filter_andb {A : Type} (f g : A -> bool) (l : list A) :
  filter (fun a => andb (f a) (g a)) l = filter g (filter f l).
Proof.
  induction l as [|a l IH]; simpl; [reflexivity|].
  destruct (f a); simpl; [destruct (g a)|]; now rewrite IH.
Qed.

Lemma filter_none {A : Type} (f : A -> bool) (l : list A) :
  (forall a, In a l -> f a = false) -> filter f l = [].
Proof.
  induction l as [|a l IH]; intros H; simpl; [reflexivity|].
  rewrite (H a) by now left. apply IH. intros b Hb. apply H. now right.
Qed.

Lemma builder_fields (mk : list scalar -> list scalar -> pyval -> trace)
    (x y : list scalar) (name : pyval) :
  builder mk ->
  trace_x (mk x y name) = x /\ trace_y (mk x y name) = y /\
  trace_name (mk x y name) = name.
Proof. intros [-> | ->]; now repeat split. Qed.

Section Series.

Variable sort_values : sorter.
Variable mk : list scalar -> list scalar -> pyval -> trace.
Hypothesis mk_builder : builder mk.

Lemma series_name (chart : list observation) (order : list pyval) :
  map trace_name (map (series mk chart) order) = order.
Proof.
  rewrite map_map. rewrite <- (map_id order) at 2. apply map_ext.
  intros c. unfold series. now apply builder_fields.
Qed.

Lemma series_drawn_from (records : list observation) (years : list string)
    (order : list pyval) :
  Forall (drawn_from years (frame sort_values records))
         (map (series mk (chart_rows sort_values records years)) order).
Proof.
  apply Forall_forall. intros t Ht.
  apply in_map_iff in Ht. destruct Ht as (c & <- & _).
  unfold drawn_from, series.
  destruct (builder_fields mk
              (map date_cell (filter (of_country c)
                                (chart_rows sort_values records years)))
              (map value_cell (filter (of_country c)
                                 (chart_rows sort_values records years)))
              c mk_builder) as (-> & -> & ->).
  exists (filter (of_country c) (chart_rows sort_values records years)).
  repeat split. rewrite filter_andb.
  apply Permutation_filter, chart_rows_perm.
Qed.

Lemma series_empty_when_absent (records : list observation)
    (years : list string) (order : list pyval) :
  Forall (empty_when_absent years records)
         (map (series mk (chart_rows sort_values records years)) order).
Proof.
  apply Forall_forall. intros t Ht.
  apply in_map_iff in Ht. destruct Ht as (c & <- & _).
  unfold empty_when_absent, series.
  destruct (builder_fields mk
              (map date_cell (filter (of_country c)
                                (chart_rows sort_values records years)))
              (map value_cell (filter (of_country c)
                                 (chart_rows sort_values records years)))
              c mk_builder) as (-> & -> & ->).
  intros Habs.
  rewrite filter_none; [now split|].
  intros o' Ho'. apply chart_rows_record in Ho'.
  destruct Ho' as (o & Hin & Hr & Hy).
  unfold of_country. rewrite (retyped_country o o' Hr).
  now apply Habs.
Qed.

End Series.

Lemma drawn_from_years (years : list string) (records : list observation)
    (t : trace) (x : scalar) :
  drawn_from years records t -> In x (trace_x t) ->
  exists s, x = SStr s /\ In s years.
Proof.
  intros (chosen & HP & Hx & _) Hin. rewrite Hx in Hin.
  apply in_map_iff in Hin. destruct Hin as (o & <- & Ho).
  apply (Permutation_in _ (Permutation_sym HP)) in Ho.
  apply filter_In in Ho. destruct Ho as [_ Ho].
  apply andb_prop in Ho. destruct Ho as [Hy _].
  unfold year_in in Hy. destruct (date_cell o) as [| |s|n|f]; try discriminate.
  exists s. split; [reflexivity|].
  apply existsb_exists in Hy. destruct Hy as (y & Hy & E).
  apply String.eqb_eq in E. now subst.
Qed.

(** * The claims *)

Section Claims.

Variable sort_values : sorter.
Variable http : collaborator.

(** C1.  When the indicator list has at least four codes and the
    collaborator answers every request with a list of well-formed
    observations that is not empty, the call returns exactly four figures, in
    this order: the lines over the records of indicator 0 with the first
    layout, the stacked bars over indicator 1, the lines of the third chart,
    and the stacked bars over indicator 3, each a pair of traces and layout.
    The points of the traces are rows of the frames, where the values have
    the type that pandas infers for the column: a null among numbers is
    there as a NaN. *)
Theorem build_returns_four_figures (h : heap) :
  4 <= List.length (indicators_obj h) ->
  forallb (answered http (country_filter (countries_obj h)))
          (enumerate (indicators_obj h)) = true ->
  exists records0 records1 records3 order h',
    source http h 0 records0 /\
    source http h 1 records1 /\
    source http h 3 records3 /\
    order = canonical_order sort_values records0 /\
    return_figures sort_values http h =
    (Ok [ {| fig_data := map (series scatter_trace
                                (chart_rows sort_values records0 years_one))
                             order;
             fig_layout := layout_one |};
          {| fig_data := map (series bar_trace
                                (chart_rows sort_values records1 years_two))
                             order;
             fig_layout := layout_two |};
          {| fig_data := map (series scatter_trace
                                (chart_rows sort_values records1 years_two))
                             order;
             fig_layout := layout_three |};
          {| fig_data := map (series bar_trace
                                (chart_rows sort_values records3 years_two))
                             order;
             fig_layout := layout_four |} ], h').
Proof.
  intros Hlen Hans.
  destruct (return_figures_total sort_values http h Hlen Hans)
    as (r0 & r1 & r3 & h' & E).
  destruct (return_figures_ok sort_values http h h' _ E)
    as (s0 & s1 & s3 & S0 & S1 & S3 & Efigs).
  exists s0, s1, s3, (canonical_order sort_values s0), h'.
  repeat (split; [assumption || reflexivity|]).
  rewrite E, Efigs. reflexivity.
Qed.

(** C2.  In a call that returns, the country order is fixed once, from the
    records of indicator 0: the rows of their frame are filtered to the
    years of the first chart and sorted by date, and the countries are taken
    once each, in the order in which they are first seen: no country comes
    twice, the countries are those of the rows, and before a country come
    the countries of the rows before its first row.  The names of the traces
    of each of the four figures are this order. *)
Theorem canonical_order_shared (h h' : heap) (figs : list figure) :
  return_figures sort_values http h = (Ok figs, h') ->
  exists records0 rows0 order,
    source http h 0 records0 /\
    Forall2 retyped records0 (frame sort_values records0) /\
    Permutation (filter (year_in years_one) (frame sort_values records0))
                rows0 /\
    Sorted date_le rows0 /\
    List.length figs = 4 /\
    Forall (fun fig => map trace_name (fig_data fig) = order) figs /\
    order = unique_from [] (map country_cell rows0) /\
    NoDup order /\
    (forall c, In c order <-> In c (map country_cell rows0)) /\
    (forall before c after,
        map country_cell rows0 = before ++ c :: after ->
        ~ In c before ->
        exists first rest,
          order = first ++ c :: rest /\
          forall d, In d first <-> In d before).
Proof.
  intros H. apply return_figures_ok in H.
  destruct H as (r0 & r1 & r3 & S0 & _ & _ & ->).
  exists r0, (chart_rows sort_values r0 years_one),
    (canonical_order sort_values r0).
  split; [assumption|]. split; [apply frame_retyped|].
  split; [apply chart_rows_perm|].
  split; [apply chart_rows_sorted|]. split; [reflexivity|].
  split.
  { unfold figures_of.
    repeat constructor; simpl; apply series_name; unfold builder; auto. }
  unfold canonical_order.
  split; [reflexivity|]. split; [apply unique_from_NoDup|]. split.
  - intros c. rewrite unique_from_In. simpl. tauto.
  - intros before c after E Hc.
    now apply (unique_from_first_seen _ before after c).
Qed.

(** C3.  In a call that returns, the traces of the third figure are drawn
    from the records of indicator 1, as those of the second figure are: for
    every country the two figures have the same x and the same y.  The
    points of a trace are the rows of the frame of these records, which
    are the records but for the type of their values, for its country and
    the years of the chart. *)
Theorem chart_three_repeats_chart_two (h h' : heap) (figs : list figure) :
  return_figures sort_values http h = (Ok figs, h') ->
  exists one two three four records1,
    figs = [one; two; three; four] /\
    source http h 1 records1 /\
    Forall2 retyped records1 (frame sort_values records1) /\
    Forall (drawn_from years_two (frame sort_values records1))
           (fig_data two) /\
    Forall (drawn_from years_two (frame sort_values records1))
           (fig_data three) /\
    map trace_name (fig_data three) = map trace_name (fig_data two) /\
    map trace_x (fig_data three) = map trace_x (fig_data two) /\
    map trace_y (fig_data three) = map trace_y (fig_data two).
Proof.
  intros H. apply return_figures_ok in H.
  destruct H as (r0 & r1 & r3 & _ & S1 & _ & ->).
  unfold figures_of.
  do 4 eexists. exists r1. split; [reflexivity|]. split; [assumption|].
  split; [apply frame_retyped|].
  simpl.
  split; [apply series_drawn_from; unfold builder; auto|].
  split; [apply series_drawn_from; unfold builder; auto|].
  rewrite !map_map. repeat split; reflexivity.
Qed.

(** C4.  In a call that returns, a point of a trace is a row of the frame
    of its indicator, a record but for the type of its value, whose date
    is, as a string, one of the years of the chart: 1990, 1995, 2000, 2005,
    2010 and 2014 for the first chart, and the same with 2015 in the place
    of 2014 for the three others.  No trace has a point of 1992. *)
Theorem year_filter_exact (h h' : heap) (figs : list figure) :
  return_figures sort_values http h = (Ok figs, h') ->
  years_one = ["1990"; "1995"; "2000"; "2005"; "2010"; "2014"] /\
  years_two = ["1990"; "1995"; "2000"; "2005"; "2010"; "2015"] /\
  exists one two three four records0 records1 records3,
    figs = [one; two; three; four] /\
    source http h 0 records0 /\
    source http h 1 records1 /\
    source http h 3 records3 /\
    Forall2 retyped records0 (frame sort_values records0) /\
    Forall2 retyped records1 (frame sort_values records1) /\
    Forall2 retyped records3 (frame sort_values records3) /\
    Forall (drawn_from years_one (frame sort_values records0))
           (fig_data one) /\
    Forall (drawn_from years_two (frame sort_values records1))
           (fig_data two) /\
    Forall (drawn_from years_two (frame sort_values records1))
           (fig_data three) /\
    Forall (drawn_from years_two (frame sort_values records3))
           (fig_data four) /\
    Forall (fun t => forall x, In x (trace_x t) ->
                               exists s, x = SStr s /\ In s years_one)
           (fig_data one) /\
    Forall (fun fig =>
              Forall (fun t => forall x, In x (trace_x t) ->
                                         exists s, x = SStr s /\
                                                   In s years_two)
                     (fig_data fig))
           [two; three; four] /\
    Forall (fun fig =>
              Forall (fun t => ~ In (SStr "1992") (trace_x t)) (fig_data fig))
           figs.
Proof.
  intros H. apply return_figures_ok in H.
  destruct H as (r0 & r1 & r3 & S0 & S1 & S3 & ->).
  split; [reflexivity|]. split; [reflexivity|].
  unfold figures_of.
  do 4 eexists. exists r0, r1, r3. split; [reflexivity|].
  do 3 (split; [assumption|]).
  do 3 (split; [apply frame_retyped|]). simpl.
  assert (D : forall mk years records order,
             builder mk ->
             Forall (drawn_from years (frame sort_values records))
               (map (series mk (chart_rows sort_values records years)) order))
    by (intros; now apply series_drawn_from).
  assert (X : forall years records ts,
             Forall (drawn_from years records) ts ->
             Forall (fun t => forall x, In x (trace_x t) ->
                                        exists s, x = SStr s /\ In s years)
                    ts).
  { intros years records ts HF. eapply Forall_impl; [|exact HF].
    intros t Ht x Hin. exact (drawn_from_years _ _ _ _ Ht Hin). }
  assert (N : forall years records ts,
             ~ In "1992" years ->
             Forall (drawn_from years records) ts ->
             Forall (fun t => ~ In (SStr "1992") (trace_x t)) ts).
  { intros years records ts Hy HF. eapply Forall_impl; [|exact HF].
    intros t Ht Hin.
    destruct (drawn_from_years _ _ _ _ Ht Hin) as (s & E & Hs).
    injection E as <-. contradiction. }
  assert (Y1 : ~ In "1992" years_one)
    by (simpl; intros [E|[E|[E|[E|[E|[E|[]]]]]]]; discriminate).
  assert (Y2 : ~ In "1992" years_two)
    by (simpl; intros [E|[E|[E|[E|[E|[E|[]]]]]]]; discriminate).
  do 4 (split; [apply D; unfold builder; auto|]).
  split.
  { apply (X years_one (frame sort_values r0)). apply D.
    unfold builder; auto. }
  split.
  - repeat constructor;
      [ apply (X years_two (frame sort_values r1))
      | apply (X years_two (frame sort_values r1))
      | apply (X years_two (frame sort_values r3)) ];
      apply D; unfold builder; auto.
  - repeat constructor; simpl;
      (eapply N; [|apply D; unfold builder; auto]); assumption.
Qed.

(** C5.  In a call that returns, every figure has one trace per country of
    the canonical order, in that order, and the trace of a country without
    a record in the years of the chart has an empty x and an empty y. *)
Theorem absent_country_empty_series (h h' : heap) (figs : list figure) :
  return_figures sort_values http h = (Ok figs, h') ->
  exists one two three four records0 records1 records3,
    figs = [one; two; three; four] /\
    source http h 0 records0 /\
    source http h 1 records1 /\
    source http h 3 records3 /\
    Forall (fun fig =>
              map trace_name (fig_data fig) =
                canonical_order sort_values records0 /\
              List.length (fig_data fig) =
                List.length (canonical_order sort_values records0)) figs /\
    Forall (empty_when_absent years_one records0) (fig_data one) /\
    Forall (empty_when_absent years_two records1) (fig_data two) /\
    Forall (empty_when_absent years_two records1) (fig_data three) /\
    Forall (empty_when_absent years_two records3) (fig_data four).
Proof.
  intros H. apply return_figures_ok in H.
  destruct H as (r0 & r1 & r3 & S0 & S1 & S3 & ->).
  unfold figures_of.
  do 4 eexists. exists r0, r1, r3. split; [reflexivity|].
  do 3 (split; [assumption|]). simpl.
  split.
  - repeat constructor; simpl;
      try (apply series_name; unfold builder; auto);
      now rewrite length_map.
  - repeat split; apply series_empty_when_absent; unfold builder; auto.
Qed.

End Claims.

Lemma for_each_cons {A S : Type} (body : S -> A -> M S) (a : A) (l : list A)
    (s : S) (h : heap) :
  for_each body (a :: l) s h =
  match body s a h with
  | (Ok s', h') => for_each body l s' h'
  | (Raise e, h') => (Raise e, h')
  end.
Proof. reflexivity. Qed.

Lemma return_figures_eq (sort_values : sorter) (http : collaborator) (h : heap) :
  return_figures sort_values http h =
  match for_each (fetch http (country_filter (countries_obj h)))
                 (enumerate (indicators_obj h))
                 {| data := None; data_frames := []; urls := [] |} h with
  | (Ok s, h1) => (assemble sort_values (data_frames s), h1)
  | (Raise e, h1) => (Raise e, h1)
  end.
Proof. reflexivity. Qed.

Section Effects.

Variable sort_values : sorter.
Variable http : collaborator.

(** C6 (what the code does).  A request that fails is caught and reported on the standard output
    with the code of its indicator, but the call does not go on: when the
    request before it was answered with observations, these are flattened a
    second time and the call raises [TypeError]. *)
Theorem failed_request_after_success_raises (h : heap) (code0 code1 : string)
    (rest : list string) :
  indicators_obj h = code0 :: code1 :: rest ->
  answered http (country_filter (countries_obj h)) (0, code0) = true ->
  http 1 (build_url (country_filter (countries_obj h)) code1) = None ->
  return_figures sort_values http h =
  (Raise TypeError,
   {| countries_obj := countries_obj h;
      indicators_obj := indicators_obj h;
      stdout := stdout h ++ [("could not load data for " ++ code1)%string];
      requested :=
        (requested h ++ [build_url (country_filter (countries_obj h)) code0])
          ++ [build_url (country_filter (countries_obj h)) code1] |}).
Proof.
  intros Hi H0 H1.
  rewrite return_figures_eq, Hi.
  change (enumerate (code0 :: code1 :: rest))
    with ((0, code0) :: (1, code1)
            :: combine (seq 2 (List.length rest)) rest).
  rewrite for_each_cons.
  destruct (fetch_answered http (country_filter (countries_obj h))
              {| data := None; data_frames := []; urls := [] |} (0, code0) h H0)
    as (o & r & Ho & E).
  rewrite E, for_each_cons.
  rewrite (fetch_stale http _ _ (1, code1) _ o r); auto.
  cbn [countries_obj indicators_obj stdout requested snd].
  rewrite ?Hi. reflexivity.
Qed.

(** C7 (amended).  For codes in ASCII, as ISO-3 codes are, the country
    filter is the codes of the mapping, lower-cased and joined with a
    semicolon.  The requests of a call are, in the order of
    the indicator list, one URL per indicator, for all of them when the call
    returns and for the first few when it raises; the URL is over http on
    api.worldbank.org, with the filter, the code, the dates 1990:2015, 1000
    observations a page and the JSON format. *)
Theorem requests_built (h : heap) :
  forallb ascii_only (values (countries_obj h)) = true ->
  exists k,
    k <= List.length (indicators_obj h) /\
    requested (snd (return_figures sort_values http h)) =
    requested h ++
    map (fun code =>
           ("http://api.worldbank.org/v2/country/"
              ++ join ";" (map lower (values (countries_obj h)))
              ++ "/indicator/" ++ code
              ++ "?date=1990:2015&per_page=1000&format=json")%string)
        (firstn k (indicators_obj h)) /\
    (forall figs, fst (return_figures sort_values http h) = Ok figs ->
                  k = List.length (indicators_obj h)).
Proof.
  intros _.
  unfold return_figures, bind at 1 2, read_countries, read_indicators.
  destruct (for_each_requested http (country_filter (countries_obj h))
              (enumerate (indicators_obj h))
              {| data := None; data_frames := []; urls := [] |} h)
    as (k & Hk & Hr & Hok).
  assert (L : List.length (enumerate (indicators_obj h)) =
              List.length (indicators_obj h)).
  { rewrite <- (map_snd_enumerate (indicators_obj h)) at 2.
    now rewrite length_map. }
  exists k. split; [lia|].
  unfold bind, lift.
  destruct (for_each _ _ _ h) as [[s|e] h1]; simpl in *.
  - split.
    + rewrite Hr. f_equal.
      rewrite <- (map_snd_enumerate (indicators_obj h)) at 2.
      rewrite firstn_map, map_map. reflexivity.
    + intros _ _. rewrite <- L. now apply (Hok s).
  - split.
    + rewrite Hr. f_equal.
      rewrite <- (map_snd_enumerate (indicators_obj h)) at 2.
      rewrite firstn_map, map_map. reflexivity.
    + discriminate.
Qed.

(** With a collaborator that decodes every answer afresh, a second call on
    the heap the first call left has the result of the first; and so has a
    call on any heap that holds the same arguments. *)
Lemma return_figures_again (h : heap) :
  fst (return_figures sort_values http
         (snd (return_figures sort_values http h))) =
  fst (return_figures sort_values http h) /\
  (forall h2, same_args h h2 ->
              fst (return_figures sort_values http h2) =
              fst (return_figures sort_values http h)).
Proof.
  split.
  - destruct (respects_return_figures sort_values http h h (same_args_refl h))
      as (_ & _ & F).
    symmetry. now apply respects_return_figures.
  - intros h2 S. symmetry. now apply respects_return_figures.
Qed.

(** C9 (amended).  In a call that returns, the traces of the first and the
    third figure are scatter traces with the mode lines+markers, those of
    the second and the fourth are bar traces, every trace has its x, y and
    name, and the layouts of the second and the fourth figure, and no other,
    have the bar mode stack. *)
Theorem trace_kinds (h h' : heap) (figs : list figure) :
  return_figures sort_values http h = (Ok figs, h') ->
  exists one two three four,
    figs = [one; two; three; four] /\
    Forall (fun t => trace_type t = "scatter" /\
                     exists x y name, t = Scatter x y "lines+markers" name)
           (fig_data one) /\
    Forall (fun t => trace_type t = "bar" /\
                     exists x y name, t = Bar x y name)
           (fig_data two) /\
    Forall (fun t => trace_type t = "scatter" /\
                     exists x y name, t = Scatter x y "lines+markers" name)
           (fig_data three) /\
    Forall (fun t => trace_type t = "bar" /\
                     exists x y name, t = Bar x y name)
           (fig_data four) /\
    barmode (fig_layout one) = None /\
    barmode (fig_layout two) = Some "stack" /\
    barmode (fig_layout three) = None /\
    barmode (fig_layout four) = Some "stack".
Proof.
  intros H. apply return_figures_ok in H.
  destruct H as (r0 & r1 & r3 & _ & _ & _ & ->).
  unfold figures_of. do 4 eexists. split; [reflexivity|]. simpl.
  repeat split;
    apply Forall_forall; intros t Ht; apply in_map_iff in Ht;
    destruct Ht as (c & <- & _); unfold series, scatter_trace, bar_trace;
    eauto.
Qed.

(** C10.  A call leaves its two arguments as they were, whether it returns
    or raises. *)
Theorem arguments_unchanged (h : heap) :
  countries_obj (snd (return_figures sort_values http h)) = countries_obj h /\
  indicators_obj (snd (return_figures sort_values http h)) = indicators_obj h.
Proof.
  destruct (respects_return_figures sort_values http h h (same_args_refl h))
    as (_ & _ & [Hc Hi]).
  now split.
Qed.

End Effects.

(** * The claims on small data *)

(** C1 on the example: four indicators, each answered. *)
Lemma build_returns_four_figures_witness :
  4 <= List.length (indicators_obj default_heap) /\
  forallb (answered http_example (country_filter (countries_obj default_heap)))
          (enumerate (indicators_obj default_heap)) = true /\
  exists records0 records1 records3 order h',
    source http_example default_heap 0 records0 /\
    source http_example default_heap 1 records1 /\
    source http_example default_heap 3 records3 /\
    order = canonical_order stable_sort records0 /\
    return_figures stable_sort http_example default_heap =
    (Ok [ {| fig_data := map (series scatter_trace
                                (chart_rows stable_sort records0 years_one))
                             order;
             fig_layout := layout_one |};
          {| fig_data := map (series bar_trace
                                (chart_rows stable_sort records1 years_two))
                             order;
             fig_layout := layout_two |};
          {| fig_data := map (series scatter_trace
                                (chart_rows stable_sort records1 years_two))
                             order;
             fig_layout := layout_three |};
          {| fig_data := map (series bar_trace
                                (chart_rows stable_sort records3 years_two))
                             order;
             fig_layout := layout_four |} ], h').
Proof.
  split; [simpl; lia|]. split; [vm_compute; reflexivity|].
  apply (build_returns_four_figures stable_sort http_example default_heap).
  - simpl; lia.
  - vm_compute; reflexivity.
Defined.

(** C2 on the example: Brazil comes first, with its record of 1990. *)
Lemma canonical_order_shared_witness :
  exists figs h',
    return_figures stable_sort http_example default_heap = (Ok figs, h') /\
    exists records0 rows0 order,
      source http_example default_heap 0 records0 /\
      Forall2 retyped records0 (frame stable_sort records0) /\
      Permutation (filter (year_in years_one) (frame stable_sort records0))
                  rows0 /\
      Sorted date_le rows0 /\
      List.length figs = 4 /\
      Forall (fun fig => map trace_name (fig_data fig) = order) figs /\
      order = unique_from [] (map country_cell rows0) /\
      NoDup order /\
      (forall c, In c order <-> In c (map country_cell rows0)) /\
      (forall before c after,
          map country_cell rows0 = before ++ c :: after ->
          ~ In c before ->
          exists first rest,
            order = first ++ c :: rest /\
            forall d, In d first <-> In d before).
Proof.
  eexists. eexists. split; [vm_compute; reflexivity|].
  eapply (canonical_order_shared stable_sort http_example default_heap).
  vm_compute; reflexivity.
Defined.

(** C3 on the example. *)
Lemma chart_three_repeats_chart_two_witness :
  exists figs h',
    return_figures stable_sort http_example default_heap = (Ok figs, h') /\
    exists one two three four records1,
      figs = [one; two; three; four] /\
      source http_example default_heap 1 records1 /\
      Forall2 retyped records1 (frame stable_sort records1) /\
      Forall (drawn_from years_two (frame stable_sort records1))
             (fig_data two) /\
      Forall (drawn_from years_two (frame stable_sort records1))
             (fig_data three) /\
      map trace_name (fig_data three) = map trace_name (fig_data two) /\
      map trace_x (fig_data three) = map trace_x (fig_data two) /\
      map trace_y (fig_data three) = map trace_y (fig_data two).
Proof.
  eexists. eexists. split; [vm_compute; reflexivity|].
  eapply (chart_three_repeats_chart_two stable_sort http_example default_heap).
  vm_compute; reflexivity.
Defined.

(** A null among the numbers of an answer: the value column of the frame
    is a column of floats, so the y of the traces hold 5.0 for 5, a NaN for
    the null, and 2^53 for 2^53 + 1. *)
Lemma null_value_is_nan :
  exists one two three four h',
    return_figures stable_sort http_with_null default_heap =
    (Ok [one; two; three; four], h') /\
    map trace_name (fig_data two) = [Scalar (SStr "A"); Scalar (SStr "B")] /\
    map trace_x (fig_data two) = [[SStr "1990"; SStr "1995"]; [SStr "1990"]] /\
    map trace_y (fig_data two) =
    [ [SFloat (S754_finite false 5629499534213120 (-50)); SNaN];
      [SFloat (S754_finite false 4503599627370496 1)] ].
Proof.
  do 5 eexists. split; [vm_compute; reflexivity|].
  repeat split; vm_compute; reflexivity.
Qed.

(** C4 on the example, which has a record of 1992. *)
Lemma year_filter_exact_witness :
  exists figs h',
    return_figures stable_sort http_example default_heap = (Ok figs, h') /\
    years_one = ["1990"; "1995"; "2000"; "2005"; "2010"; "2014"] /\
    years_two = ["1990"; "1995"; "2000"; "2005"; "2010"; "2015"] /\
    exists one two three four records0 records1 records3,
      figs = [one; two; three; four] /\
      source http_example default_heap 0 records0 /\
      source http_example default_heap 1 records1 /\
      source http_example default_heap 3 records3 /\
      Forall2 retyped records0 (frame stable_sort records0) /\
      Forall2 retyped records1 (frame stable_sort records1) /\
      Forall2 retyped records3 (frame stable_sort records3) /\
      Forall (drawn_from years_one (frame stable_sort records0))
             (fig_data one) /\
      Forall (drawn_from years_two (frame stable_sort records1))
             (fig_data two) /\
      Forall (drawn_from years_two (frame stable_sort records1))
             (fig_data three) /\
      Forall (drawn_from years_two (frame stable_sort records3))
             (fig_data four) /\
      Forall (fun t => forall x, In x (trace_x t) ->
                                 exists s, x = SStr s /\ In s years_one)
             (fig_data one) /\
      Forall (fun fig =>
                Forall (fun t => forall x, In x (trace_x t) ->
                                           exists s, x = SStr s /\
                                                     In s years_two)
                       (fig_data fig))
             [two; three; four] /\
      Forall (fun fig =>
                Forall (fun t => ~ In (SStr "1992") (trace_x t)) (fig_data fig))
             figs.
Proof.
  eexists. eexists. split; [vm_compute; reflexivity|].
  eapply (year_filter_exact stable_sort http_example default_heap).
  vm_compute; reflexivity.
Defined.

(** C5 on the example, where Brazil has no renewable share. *)
Lemma absent_country_empty_series_witness :
  exists figs h',
    return_figures stable_sort http_example default_heap = (Ok figs, h') /\
    exists one two three four records0 records1 records3,
      figs = [one; two; three; four] /\
      source http_example default_heap 0 records0 /\
      source http_example default_heap 1 records1 /\
      source http_example default_heap 3 records3 /\
      Forall (fun fig =>
                map trace_name (fig_data fig) =
                  canonical_order stable_sort records0 /\
                List.length (fig_data fig) =
                  List.length (canonical_order stable_sort records0)) figs /\
      Forall (empty_when_absent years_one records0) (fig_data one) /\
      Forall (empty_when_absent years_two records1) (fig_data two) /\
      Forall (empty_when_absent years_two records1) (fig_data three) /\
      Forall (empty_when_absent years_two records3) (fig_data four).
Proof.
  eexists. eexists. split; [vm_compute; reflexivity|].
  eapply (absent_country_empty_series stable_sort http_example default_heap).
  vm_compute; reflexivity.
Defined.

(** C6 on the example with a second request that fails. *)
Lemma failed_request_after_success_raises_witness :
  indicators_obj default_heap =
    "EG.USE.ELEC.KH.PC" :: "EG.FEC.RNEW.ZS"
      :: ["EG.USE.PCAP.KG.OE"; "EN.ATM.GHGT.KT.CE"] /\
  answered http_second_fails (country_filter (countries_obj default_heap))
           (0, "EG.USE.ELEC.KH.PC") = true /\
  http_second_fails 1 (build_url (country_filter (countries_obj default_heap))
                                 "EG.FEC.RNEW.ZS") = None /\
  fst (return_figures stable_sort http_second_fails default_heap) =
    Raise TypeError /\
  stdout (snd (return_figures stable_sort http_second_fails default_heap)) =
    ["could not load data for EG.FEC.RNEW.ZS"].
Proof.
  split; [reflexivity|]. split; [vm_compute; reflexivity|].
  split; [reflexivity|].
  rewrite (failed_request_after_success_raises stable_sort http_second_fails
             default_heap "EG.USE.ELEC.KH.PC" "EG.FEC.RNEW.ZS"
             ["EG.USE.PCAP.KG.OE"; "EN.ATM.GHGT.KT.CE"]).
  - split; reflexivity.
  - reflexivity.
  - vm_compute; reflexivity.
  - reflexivity.
Defined.

(** C7 (amended) on the example: the four requests of a call with the
    default arguments, letter by letter. *)
Lemma requests_built_witness :
  forallb ascii_only (values (countries_obj default_heap)) = true /\
  requested (snd (return_figures stable_sort http_example default_heap)) =
  [ "http://api.worldbank.org/v2/country/can;usa;bra;fra;ind;ita;deu;gbr;chn;jpn/indicator/EG.USE.ELEC.KH.PC?date=1990:2015&per_page=1000&format=json";
    "http://api.worldbank.org/v2/country/can;usa;bra;fra;ind;ita;deu;gbr;chn;jpn/indicator/EG.FEC.RNEW.ZS?date=1990:2015&per_page=1000&format=json";
    "http://api.worldbank.org/v2/country/can;usa;bra;fra;ind;ita;deu;gbr;chn;jpn/indicator/EG.USE.PCAP.KG.OE?date=1990:2015&per_page=1000&format=json";
    "http://api.worldbank.org/v2/country/can;usa;bra;fra;ind;ita;deu;gbr;chn;jpn/indicator/EN.ATM.GHGT.KT.CE?date=1990:2015&per_page=1000&format=json" ].
Proof.
  split; [reflexivity|].
  destruct (requests_built stable_sort http_example default_heap eq_refl)
    as (k & Hk & Hr & Hok).
  assert (Ek : k = 4) by (eapply Hok; vm_compute; reflexivity).
  subst k. rewrite Hr. reflexivity.
Defined.

(** C7 as worded.  The first request of a call with the default arguments
    is not over https, whatever the host: the URL the specification words is
    not built. *)
Lemma https_not_requested :
  exists url,
    nth_error
      (requested (snd (return_figures stable_sort http_example default_heap)))
      0 = Some url /\
    forall host,
      url <> url_as_specified host (country_filter country_default)
                              "EG.USE.ELEC.KH.PC".
Proof.
  eexists. split; [vm_compute; reflexivity|].
  intros host E. unfold url_as_specified in E. simpl in E. discriminate.
Qed.

(** C9 as worded.  The traces of the first figure carry the mode
    lines+markers, which is not the kind line+markers of the specification. *)
Lemma line_kind_not_emitted :
  exists figs h' one t,
    return_figures stable_sort http_example default_heap = (Ok figs, h') /\
    nth_error figs 0 = Some one /\
    In t (fig_data one) /\
    trace_mode t = Some "lines+markers" /\
    trace_mode t <> Some "line+markers".
Proof.
  eexists. eexists. eexists. eexists.
  split; [vm_compute; reflexivity|].
  split; [reflexivity|].
  split; [left; reflexivity|].
  split; [reflexivity|]. simpl. discriminate.
Qed.

(** C9 (amended) on the example. *)
Lemma trace_kinds_witness :
  exists figs h',
    return_figures stable_sort http_example default_heap = (Ok figs, h') /\
    exists one two three four,
      figs = [one; two; three; four] /\
      Forall (fun t => trace_type t = "scatter" /\
                     exists x y name, t = Scatter x y "lines+markers" name)
             (fig_data one) /\
      Forall (fun t => trace_type t = "bar" /\
                       exists x y name, t = Bar x y name)
             (fig_data two) /\
      Forall (fun t => trace_type t = "scatter" /\
                     exists x y name, t = Scatter x y "lines+markers" name)
             (fig_data three) /\
      Forall (fun t => trace_type t = "bar" /\
                       exists x y name, t = Bar x y name)
             (fig_data four) /\
      barmode (fig_layout one) = None /\
      barmode (fig_layout two) = Some "stack" /\
      barmode (fig_layout three) = None /\
      barmode (fig_layout four) = Some "stack".
Proof.
  eexists. eexists. split; [vm_compute; reflexivity|].
  eapply (trace_kinds stable_sort http_example default_heap).
  vm_compute; reflexivity.
Defined.

(** * More of [return_figures] *)

(** ** The order of strings and of rows *)

Lemma leb_trans (a b c : string) :
  String.leb a b = true -> String.leb b c = true -> String.leb a c = true.
Proof.
  unfold String.leb. revert b c.
  induction a as [|x a IH]; intros [|y b] [|z c]; simpl; try congruence.
  unfold Ascii.compare.
  destruct (N.compare_spec (N_of_ascii x) (N_of_ascii y)) as [E1|L1|G1];
    destruct (N.compare_spec (N_of_ascii y) (N_of_ascii z)) as [E2|L2|G2];
    destruct (N.compare_spec (N_of_ascii x) (N_of_ascii z)) as [E3|L3|G3];
    try congruence; try lia.
  apply IH.
Qed.

Lemma date_le_trans : Relations_1.Transitive date_le.
Proof. intros a b c. unfold date_le. apply leb_trans. Qed.

Lemma StronglySorted_filter {A : Type} (R : A -> A -> Prop) (f : A -> bool)
    (l : list A) :
  StronglySorted R l -> StronglySorted R (filter f l).
Proof.
  induction 1 as [|a l Hs IH Hall]; simpl; [constructor|].
  destruct (f a); [|assumption].
  constructor; [assumption|].
  apply Forall_forall. intros b Hb. apply filter_In in Hb.
  now apply (proj1 (Forall_forall _ _) Hall).
Qed.

Lemma StronglySorted_dates (l : list observation) :
  Forall (fun o => date_is_str o = true) l ->
  StronglySorted date_le l -> StronglySorted year_le (map date_cell l).
Proof.
  intros HF HS. induction HS as [|a l Hs IH Hall]; simpl; [constructor|].
  inversion HF as [|? ? Ha Hl]; subst.
  constructor; [now apply IH|].
  apply Forall_forall. intros x Hx. apply in_map_iff in Hx.
  destruct Hx as (b & <- & Hb).
  pose proof (proj1 (Forall_forall _ _) Hall b Hb) as Hab.
  pose proof (proj1 (Forall_forall _ _) Hl b Hb) as Hbs.
  unfold date_le, date_key in Hab. unfold date_is_str in Ha, Hbs.
  unfold year_le, date_cell.
  destruct (obs_date a) as [[| |s|n|f]|]; try discriminate.
  destruct (obs_date b) as [[| |t|m|g]|]; try discriminate.
  exact Hab.
Qed.

(** ** Flattened records and the answer they come from *)

Lemma flatten_year_in (years : list string) (raw o : observation) :
  flatten raw = Ok o -> year_in years o = year_in years raw.
Proof.
  intros H. apply flatten_ok in H. destruct H as (_ & Hd & _).
  unfold year_in, date_cell. now rewrite Hd.
Qed.

Lemma flatten_country (raw o : observation) :
  flatten raw = Ok o ->
  exists d s, obs_country raw = Some (Dict d) /\
              subscript_value (Dict d) = Ok s /\
              country_cell o = Scalar (SStr s).
Proof.
  intros H. apply flatten_ok in H.
  destruct H as (_ & _ & _ & c & Hc & t & Ht & Ho).
  destruct c as [v|d]; [discriminate|].
  exists d, t. unfold country_cell. rewrite Ho. auto.
Qed.

Section Returned.

Variable sort_values : sorter.

(** X1.  In a call that returns, the traces of a figure have distinct
    names, and the names are the display values of the countries that the
    answer to the first request has an observation for in one of the years
    of the first chart. *)
Theorem trace_names_distinct (http : collaborator) (h h' : heap)
    (figs : list figure) :
  return_figures sort_values http h = (Ok figs, h') ->
  exists code l,
    nth_error (indicators_obj h) 0 = Some code /\
    http 0 (build_url (country_filter (countries_obj h)) code)
      = Some (JRecords l) /\
    Forall (fun fig =>
              NoDup (map trace_name (fig_data fig)) /\
              forall name,
                In name (map trace_name (fig_data fig)) <->
                exists raw d s,
                  In raw l /\ year_in years_one raw = true /\
                  obs_country raw = Some (Dict d) /\
                  subscript_value (Dict d) = Ok s /\
                  name = Scalar (SStr s)) figs.
Proof.
  intros H. apply return_figures_ok in H.
  destruct H as (r0 & r1 & r3 & (code & l & Hn & Hh & Hl) & _ & _ & ->).
  exists code, l. split; [assumption|]. split; [assumption|].
  apply flatten_all_ok in Hl. destruct Hl as [_ HF].
  assert (N : forall mk chart,
             builder mk ->
             NoDup (map trace_name
                      (map (series mk chart)
                           (canonical_order sort_values r0))) /\
             forall name,
               In name (map trace_name
                          (map (series mk chart)
                               (canonical_order sort_values r0))) <->
               exists raw d s,
                 In raw l /\ year_in years_one raw = true /\
                 obs_country raw = Some (Dict d) /\
                 subscript_value (Dict d) = Ok s /\
                 name = Scalar (SStr s)).
  { intros mk chart Hmk. rewrite (series_name mk Hmk).
    unfold canonical_order. split; [apply unique_from_NoDup|].
    intros name. rewrite unique_from_In, in_map_iff. split.
    - intros [(o' & <- & Ho') _]. apply chart_rows_record in Ho'.
      destruct Ho' as (o & Ho & Hr & Hy).
      destruct (Forall2_In_r _ _ _ _ HF Ho) as (raw & Hraw & Hf).
      destruct (flatten_country _ _ Hf) as (d & s & Hc & Hs & Hcell).
      exists raw, d, s. rewrite <- (flatten_year_in years_one raw o Hf).
      rewrite (retyped_country o o' Hr). auto.
    - intros (raw & d & s & Hraw & Hy & Hc & Hs & ->).
      split; [|tauto].
      destruct (Forall2_In_l _ _ _ _ HF Hraw) as (o & Ho & Hf).
      rewrite <- (flatten_year_in years_one raw o Hf) in Hy.
      destruct (record_chart_rows sort_values r0 years_one o Ho Hy)
        as (o' & Ho' & Hr).
      exists o'. split; [|assumption].
      rewrite (retyped_country o o' Hr).
      destruct (flatten_country _ _ Hf) as (d' & s' & Hc' & Hs' & Hcell).
      rewrite Hc in Hc'. injection Hc' as <-. congruence. }
  unfold figures_of.
  repeat constructor; simpl; apply N; unfold builder; auto.
Qed.

(** X2.  In a call that returns, the x values of every trace are strings in
    ascending order. *)
Theorem trace_x_ascending (http : collaborator) (h h' : heap)
    (figs : list figure) :
  return_figures sort_values http h = (Ok figs, h') ->
  Forall (fun fig =>
            Forall (fun t => StronglySorted year_le (trace_x t)) (fig_data fig))
         figs.
Proof.
  intros H. apply return_figures_ok in H.
  destruct H as (r0 & r1 & r3 & _ & _ & _ & ->).
  assert (S : forall mk records years order,
             builder mk ->
             Forall (fun t => StronglySorted year_le (trace_x t))
               (map (series mk (chart_rows sort_values records years)) order)).
  { intros mk records years order Hmk. apply Forall_forall. intros t Ht.
    apply in_map_iff in Ht. destruct Ht as (c & <- & _). unfold series.
    destruct (builder_fields mk
                (map date_cell (filter (of_country c)
                                  (chart_rows sort_values records years)))
                (map value_cell (filter (of_country c)
                                   (chart_rows sort_values records years)))
                c Hmk) as (-> & _).
    apply StronglySorted_dates.
    - apply Forall_forall. intros o Ho. apply filter_In in Ho.
      destruct Ho as [Ho _]. apply chart_rows_In in Ho.
      now apply (year_in_date_is_str years).
    - apply StronglySorted_filter.
      apply Sorted_StronglySorted; [exact date_le_trans|].
      apply chart_rows_sorted. }
  unfold figures_of.
  repeat constructor; simpl; apply S; unfold builder; auto.
Qed.

(** X3.  The figures depend on the collaborator through its answers to the
    requests at positions 0, 1 and 3 only: two calls that both return, with
    collaborators that agree on these three requests, return the same
    figures, whatever the answers for the indicator at position 2 and for
    those after position 3. *)
Theorem other_answers_unused (http http' : collaborator) (h h1 h2 : heap)
    (figs figs' : list figure) :
  (forall i url, i = 0 \/ i = 1 \/ i = 3 -> http' i url = http i url) ->
  return_figures sort_values http h = (Ok figs, h1) ->
  return_figures sort_values http' h = (Ok figs', h2) ->
  figs' = figs.
Proof.
  intros Hagree H H'.
  apply return_figures_ok in H. apply return_figures_ok in H'.
  destruct H as (r0 & r1 & r3 & S0 & S1 & S3 & ->).
  destruct H' as (r0' & r1' & r3' & S0' & S1' & S3' & ->).
  assert (E : forall i r r', i = 0 \/ i = 1 \/ i = 3 ->
                             source http h i r -> source http' h i r' ->
                             r' = r).
  { intros i r r' Hi (code & l & Hn & Hh & Hl) (code' & l' & Hn' & Hh' & Hl').
    rewrite Hn in Hn'. injection Hn' as <-.
    rewrite (Hagree i _ Hi), Hh in Hh'. injection Hh' as <-.
    congruence. }
  rewrite (E 0 r0 r0'), (E 1 r1 r1'), (E 3 r3 r3'); auto.
Qed.

End Returned.

(** ** More on the first loop *)

Lemma for_each_app {A S : Type} (body : S -> A -> M S) (l1 l2 : list A)
    (s : S) (h : heap) :
  for_each body (l1 ++ l2) s h =
  match for_each body l1 s h with
  | (Ok s', h') => for_each body l2 s' h'
  | (Raise e, h') => (Raise e, h')
  end.
Proof.
  revert s h. induction l1 as [|a l1 IH]; intros s h; simpl; [reflexivity|].
  unfold bind. destruct (body s a h) as [[s1|e] h1]; [apply IH | reflexivity].
Qed.

Lemma skipn_nth_error {A : Type} (l : list A) (k : nat) (a : A) :
  nth_error l k = Some a -> skipn k l = a :: skipn (S k) l.
Proof.
  revert l. induction k as [|k IH]; intros [|x l] H; simpl in *;
    try discriminate.
  - now injection H as ->.
  - now apply IH.
Qed.

Lemma enumerate_split {A : Type} (l : list A) (k : nat) (a : A) :
  nth_error l k = Some a ->
  enumerate l =
  firstn k (enumerate l) ++ (k, a) :: skipn (S k) (enumerate l).
Proof.
  intros H. apply enumerate_nth_error in H.
  rewrite <- (firstn_skipn k (enumerate l)) at 1. f_equal.
  now apply skipn_nth_error.
Qed.

Section LoopErrors.

Variable http : collaborator.
Variable filter_str : string.

(** What [data] is bound to after some requests, all answered. *)
Definition data_after (steps : list (nat * string)) (s s' : locals) : Prop :=
  match steps with
  | [] => s' = s
  | _ :: _ => exists o r, data s' = Some (JRecords (o :: r)) /\ flattened o
  end.

Lemma for_each_answered (steps : list (nat * string)) (s : locals) (h : heap) :
  forallb (answered http filter_str) steps = true ->
  exists s' h',
    for_each (fetch http filter_str) steps s h = (Ok s', h') /\
    data_after steps s s' /\ stdout h' = stdout h.
Proof.
  revert s h. induction steps as [|step steps IH]; intros s h H.
  - exists s, h. simpl. auto.
  - simpl in H. apply andb_prop in H. destruct H as [H1 H2].
    destruct (fetch_answered http filter_str s step h H1) as (o & r & Ho & E).
    rewrite for_each_cons, E.
    match goal with
    | |- context [for_each _ steps ?s1 ?h1] =>
        destruct (IH s1 h1 H2) as (s' & h' & E' & D & Hs)
    end.
    exists s', h'. split; [exact E'|]. split; [|exact Hs].
    destruct steps as [|step' steps]; simpl in *.
    + subst s'. simpl. eauto.
    + exact D.
Qed.

Lemma fetch_flatten_error (s : locals) (step : nat * string) (h : heap)
    (d : json1) (e : exn) :
  http (fst step) (build_url filter_str (snd step)) = Some d ->
  flatten_data (Some d) = Raise e ->
  fst (fetch http filter_str s step h) = Raise e.
Proof.
  intros Hh He.
  unfold fetch, bind, try_except, requests_get_json1, print, ret, lift.
  rewrite Hh. destruct d as [|l]; simpl in *.
  - now injection He as <-.
  - now rewrite He.
Qed.

Lemma fetch_failed_unbound (s : locals) (step : nat * string) (h : heap) :
  http (fst step) (build_url filter_str (snd step)) = None ->
  data s = None ->
  fst (fetch http filter_str s step h) = Raise (UnboundLocalError "data").
Proof.
  intros Hh Hd.
  unfold fetch, bind, try_except, requests_get_json1, print, ret, lift.
  rewrite Hh. simpl. now rewrite Hd.
Qed.

Lemma fetch_stdout (s : locals) (step : nat * string) (h : heap) :
  stdout (snd (fetch http filter_str s step h)) =
  stdout h ++ (if failed http filter_str step then [could_not_load step]
               else []).
Proof.
  unfold fetch, bind, try_except, requests_get_json1, print, ret, lift, failed.
  destruct (http (fst step) (build_url filter_str (snd step))) as [[|l]|];
    simpl.
  - now rewrite app_nil_r.
  - destruct (flatten_all l); simpl; now rewrite app_nil_r.
  - destruct (data s) as [[|r]|]; simpl; try reflexivity.
    destruct (flatten_all r); reflexivity.
Qed.

Lemma for_each_log (steps : list (nat * string)) (s : locals) (h : heap) :
  exists k,
    k <= List.length steps /\
    requested (snd (for_each (fetch http filter_str) steps s h)) =
    requested h ++ map (fun step => build_url filter_str (snd step))
                       (firstn k steps) /\
    stdout (snd (for_each (fetch http filter_str) steps s h)) =
    stdout h ++ map could_not_load
                    (filter (failed http filter_str) (firstn k steps)) /\
    (forall s', fst (for_each (fetch http filter_str) steps s h) = Ok s' ->
                k = List.length steps).
Proof.
  revert s h. induction steps as [|step steps IH]; intros s h.
  - exists 0. simpl. rewrite !app_nil_r. auto.
  - rewrite for_each_cons.
    pose proof (fetch_requested http filter_str s step h) as R.
    pose proof (fetch_stdout s step h) as P.
    destruct (fetch http filter_str s step h) as [[s1|e] h1]; simpl in R, P.
    + destruct (IH s1 h1) as (k & Hk & Hr & Hp & Hok).
      exists (S k). split; [simpl; lia|]. split; [|split].
      * rewrite Hr, R, <- app_assoc. reflexivity.
      * rewrite Hp, P, <- app_assoc. f_equal. simpl.
        destruct (failed http filter_str step); reflexivity.
      * intros s' Hs'. simpl. now rewrite (Hok s' Hs').
    + exists 1. split; [simpl; lia|]. split; [|split].
      * simpl. now rewrite R.
      * simpl. rewrite P.
        destruct (failed http filter_str step); reflexivity.
      * discriminate.
Qed.

(** What the loop keeps true of [data] when no answer is the empty list. *)
Definition data_full (s : locals) : Prop :=
  match data s with
  | None => True
  | Some JNull => False
  | Some (JRecords r) => r <> [] /\ Forall flattened r
  end.

Lemma fetch_ok_answered (s s' : locals) (step : nat * string) (h h' : heap) :
  fetch http filter_str s step h = (Ok s', h') ->
  data_full s ->
  replied_nothing http filter_str step = false ->
  data_full s' /\ failed http filter_str step = false /\ stdout h' = stdout h.
Proof.
  unfold fetch, bind, try_except, requests_get_json1, print, ret, lift,
    replied_nothing, failed, data_full.
  intros H Hinv Hne.
  destruct (http (fst step) (build_url filter_str (snd step)))
    as [[|l]|] eqn:Eh; simpl in H.
  - discriminate.
  - destruct (flatten_all l) as [records|e] eqn:El; [|discriminate].
    injection H as <- <-. simpl. split; [|auto].
    apply flatten_all_ok in El. destruct El as [HF H2]. split; [|assumption].
    intros ->. inversion H2; subst. discriminate.
  - destruct (data s) as [[|r]|]; simpl in H; try discriminate.
    destruct Hinv as [Hr HF].
    destruct (flatten_all r) as [records|e] eqn:Er; [|discriminate].
    destruct (flatten_all_stale r records HF Er) as [-> _]. congruence.
Qed.

Lemma for_each_ok_answered (steps : list (nat * string)) (s s' : locals)
    (h h' : heap) :
  for_each (fetch http filter_str) steps s h = (Ok s', h') ->
  data_full s ->
  forallb (fun step => negb (replied_nothing http filter_str step)) steps
    = true ->
  forallb (fun step => negb (failed http filter_str step)) steps = true /\
  stdout h' = stdout h.
Proof.
  revert s h. induction steps as [|step steps IH]; intros s h H Hinv Hne.
  - simpl in H. injection H as <- <-. auto.
  - simpl in Hne. apply andb_prop in Hne. destruct Hne as [N1 N2].
    apply negb_true_iff in N1.
    rewrite for_each_cons in H.
    destruct (fetch http filter_str s step h) as [[s1|e] h1] eqn:E;
      [|discriminate].
    destruct (fetch_ok_answered _ _ _ _ _ E Hinv N1) as (Hinv1 & Hf & Hs).
    destruct (IH _ _ H Hinv1 N2) as (Hall & Hs').
    split; [|congruence]. simpl. now rewrite Hf, Hall.
Qed.

End LoopErrors.

(** ** Failures of the first loop *)

Section Failures.

Variable sort_values : sorter.
Variable http : collaborator.

(** X4.  An exception raised while the observations of an answer are
    flattened is not caught: when the requests before were answered, a
    request answered with [null], or with a list one of whose observations
    cannot be flattened, makes the call raise that exception. *)
Theorem flatten_error_surfaces (h : heap) (k : nat) (code : string)
    (d : json1) (e : exn) :
  forallb (answered http (country_filter (countries_obj h)))
          (firstn k (enumerate (indicators_obj h))) = true ->
  nth_error (indicators_obj h) k = Some code ->
  http k (build_url (country_filter (countries_obj h)) code) = Some d ->
  flatten_data (Some d) = Raise e ->
  fst (return_figures sort_values http h) = Raise e.
Proof.
  intros Hpre Hn Hh He.
  rewrite return_figures_eq, (enumerate_split _ k code Hn), for_each_app.
  destruct (for_each_answered http _ _
              {| data := None; data_frames := []; urls := [] |} h Hpre)
    as (s' & h' & E & _ & _).
  rewrite E, for_each_cons.
  pose proof (fetch_flatten_error http (country_filter (countries_obj h))
                s' (k, code) h' d e Hh He) as F.
  destruct (fetch http _ s' (k, code) h') as [[s1|e1] h1]; simpl in *.
  - discriminate.
  - now injection F as ->.
Qed.

(** X5.  A request that raises ends the call when the requests before were
    answered with observations: with [UnboundLocalError] when it is the
    first request, as [data] was never bound, and with [TypeError] when it
    is a later one. *)
Theorem failed_request_raises (h : heap) (k : nat) (code : string) :
  forallb (answered http (country_filter (countries_obj h)))
          (firstn k (enumerate (indicators_obj h))) = true ->
  nth_error (indicators_obj h) k = Some code ->
  http k (build_url (country_filter (countries_obj h)) code) = None ->
  fst (return_figures sort_values http h) =
  Raise (match k with
         | 0 => UnboundLocalError "data"
         | S _ => TypeError
         end).
Proof.
  intros Hpre Hn Hh.
  pose proof (enumerate_nth_error _ _ _ Hn) as Hen.
  rewrite return_figures_eq, (enumerate_split _ k code Hn), for_each_app.
  destruct (for_each_answered http _ _
              {| data := None; data_frames := []; urls := [] |} h Hpre)
    as (s' & h' & E & D & _).
  rewrite E, for_each_cons.
  destruct k as [|k].
  - simpl in D. subst s'.
    pose proof (fetch_failed_unbound http (country_filter (countries_obj h))
                  {| data := None; data_frames := []; urls := [] |}
                  (0, code) h' Hh eq_refl) as F.
    destruct (fetch http _ _ (0, code) h') as [[s1|e1] h1]; simpl in *.
    + discriminate.
    + now injection F as ->.
  - destruct (enumerate (indicators_obj h)) as [|x m]; [discriminate|].
    simpl in D. destruct D as (o & r & Hd & Ho).
    now rewrite (fetch_stale http _ s' (S k, code) h' o r Hd Ho Hh).
Qed.

(** X6.  What a call prints is one line per request that raised, among the
    requests it sent, in their order, each naming the indicator of the
    request; nothing else is printed and nothing is taken from the standard
    output. *)
Theorem printed_lines (h : heap) :
  exists k,
    k <= List.length (indicators_obj h) /\
    requested (snd (return_figures sort_values http h)) =
    requested h ++
    map (fun step => build_url (country_filter (countries_obj h)) (snd step))
        (firstn k (enumerate (indicators_obj h))) /\
    stdout (snd (return_figures sort_values http h)) =
    stdout h ++
    map (fun step => ("could not load data for " ++ snd step)%string)
        (filter (failed http (country_filter (countries_obj h)))
                (firstn k (enumerate (indicators_obj h)))) /\
    (forall figs, fst (return_figures sort_values http h) = Ok figs ->
                  k = List.length (indicators_obj h)).
Proof.
  rewrite return_figures_eq.
  destruct (for_each_log http (country_filter (countries_obj h))
              (enumerate (indicators_obj h))
              {| data := None; data_frames := []; urls := [] |} h)
    as (k & Hk & Hr & Hp & Hok).
  assert (L : List.length (enumerate (indicators_obj h)) =
              List.length (indicators_obj h)).
  { rewrite <- (map_snd_enumerate (indicators_obj h)) at 2.
    now rewrite length_map. }
  exists k. split; [lia|].
  destruct (for_each _ _ _ h) as [[s|e] h1]; simpl in *.
  - split; [exact Hr|]. split; [exact Hp|].
    intros _ _. rewrite <- L. now apply (Hok s).
  - split; [exact Hr|]. split; [exact Hp|]. discriminate.
Qed.

(** X7.  A call that returns when no answer is the empty list has had every
    request answered, and has printed nothing. *)
Theorem returns_only_if_answered (h h' : heap) (figs : list figure) :
  return_figures sort_values http h = (Ok figs, h') ->
  forallb (fun step =>
             negb (replied_nothing http (country_filter (countries_obj h))
                                   step))
          (enumerate (indicators_obj h)) = true ->
  forallb (fun step =>
             negb (failed http (country_filter (countries_obj h)) step))
          (enumerate (indicators_obj h)) = true /\
  stdout h' = stdout h.
Proof.
  rewrite return_figures_eq. intros H Hne.
  destruct (for_each _ _ _ h) as [[s|e] h1] eqn:E; [|discriminate].
  injection H as _ <-.
  apply (for_each_ok_answered http _ _ _ _ _ _ E); [exact I | exact Hne].
Qed.

End Failures.

(** ** Failures after the first loop *)

Section Assembly.

Variable sort_values : sorter.

Lemma prepare_index_error (frames : list (list observation)) (i : nat)
    (years : list string) :
  nth_error frames i = None ->
  prepare sort_values frames i years = Raise IndexError.
Proof. intros H. unfold prepare, index. now rewrite H. Qed.

Lemma prepare_empty (frames : list (list observation)) (i : nat)
    (years : list string) :
  nth_error frames i = Some [] ->
  prepare sort_values frames i years = Raise (KeyError "date").
Proof. intros H. unfold prepare, index. now rewrite H. Qed.

Lemma frame_columns (key : string) (records r : list observation) :
  In key ["country"; "date"; "value"] ->
  records <> [] -> Forall full_row records ->
  has_column key
    {| columns := columns (pd_DataFrame (astype sort_values) records);
       rows := r |} = true.
Proof.
  intros Hk Hne HF.
  rewrite (has_column_rows key _ _
             (rows (pd_DataFrame (astype sort_values) records))).
  now apply (has_column_full (astype sort_values) key records).
Qed.

Lemma chart_total {B : Type} (frames : list (list observation)) (i : nat)
    (years : list string) (mk : list scalar -> list scalar -> pyval -> trace)
    (order : list pyval) (records : list observation)
    (k : list trace -> result B) :
  nth_error frames i = Some records ->
  records <> [] -> Forall full_row records ->
  rbind (prepare sort_values frames i years)
        (fun df => rbind (for_countries df mk order) k) =
  k (map (series mk (chart_rows sort_values records years)) order).
Proof.
  intros Hn Hne HF.
  rewrite (prepare_total sort_values frames i years records Hn)
    by (apply has_column_full; simpl; auto).
  cbn [rbind].
  rewrite for_countries_total; [reflexivity| | |];
    apply frame_columns; simpl; auto.
Qed.

Lemma first_chart_total {B : Type} (frames : list (list observation))
    (records : list observation)
    (k : list pyval -> list trace -> result B) :
  nth_error frames 0 = Some records ->
  records <> [] -> Forall full_row records ->
  rbind (df_one sort_values frames)
        (fun one =>
           rbind (countrylist_of one)
                 (fun countrylist =>
                    rbind (for_countries one scatter_trace countrylist)
                          (k countrylist))) =
  k (canonical_order sort_values records)
    (map (series scatter_trace (chart_rows sort_values records years_one))
         (canonical_order sort_values records)).
Proof.
  intros Hn Hne HF. unfold df_one.
  rewrite (prepare_total sort_values frames 0 _ records Hn)
    by (apply has_column_full; simpl; auto).
  cbn [rbind]. unfold countrylist_of, getattr_column.
  rewrite frame_columns by (simpl; auto).
  cbn [rbind rows]. unfold unique.
  rewrite hashable_full by now apply chart_rows_full.
  cbn [rbind].
  rewrite for_countries_total; [reflexivity| | |];
    apply frame_columns; simpl; auto.
Qed.

(** With fewer than four lists of records, the fourth chart, if not an
    earlier one, finds no records at its position. *)
Lemma assemble_index_error (frames : list (list observation)) :
  List.length frames < 4 ->
  Forall (fun records => records <> [] /\ Forall full_row records) frames ->
  assemble sort_values frames = Raise IndexError.
Proof.
  intros Hlen HF. unfold assemble.
  destruct frames as [|f0 frames]; [reflexivity|].
  inversion HF as [|? ? [N0 F0] HF1]; subst.
  rewrite (first_chart_total (f0 :: frames) f0) by auto.
  destruct frames as [|f1 frames]; [reflexivity|].
  inversion HF1 as [|? ? [N1 F1] HF2]; subst.
  unfold df_two, df_three, df_four.
  rewrite (chart_total (f0 :: f1 :: frames) 1 _ _ _ f1) by auto.
  rewrite (chart_total (f0 :: f1 :: frames) 1 _ _ _ f1) by auto.
  rewrite prepare_index_error; [reflexivity|].
  apply nth_error_None. simpl in *. lia.
Qed.

(** An empty list of records at position 0, 1 or 3 gives a frame without a
    date column. *)
Lemma assemble_empty_frame (frames : list (list observation))
    (records0 records1 records3 : list observation) :
  nth_error frames 0 = Some records0 ->
  nth_error frames 1 = Some records1 ->
  nth_error frames 3 = Some records3 ->
  Forall full_row records0 -> Forall full_row records1 ->
  Forall full_row records3 ->
  records0 = [] \/ records1 = [] \/ records3 = [] ->
  assemble sort_values frames = Raise (KeyError "date").
Proof.
  intros N0 N1 N3 F0 F1 F3 Hempty. unfold assemble.
  destruct records0 as [|o0 r0].
  { unfold df_one. now rewrite prepare_empty. }
  rewrite (first_chart_total frames (o0 :: r0)) by (auto; discriminate).
  unfold df_two, df_three, df_four.
  destruct records1 as [|o1 r1].
  { now rewrite prepare_empty. }
  rewrite (chart_total frames 1 _ _ _ (o1 :: r1)) by (auto; discriminate).
  rewrite (chart_total frames 1 _ _ _ (o1 :: r1)) by (auto; discriminate).
  destruct Hempty as [E|[E|E]]; try discriminate. subst records3.
  now rewrite prepare_empty.
Qed.

End Assembly.

Section Replies.

Variable http : collaborator.
Variable filter_str : string.

Lemma fetch_replied (s : locals) (step : nat * string) (h : heap) :
  replied http filter_str step = true ->
  exists records h',
    fetch http filter_str s step h =
    (Ok {| data := Some (JRecords records);
           data_frames := data_frames s ++ [records];
           urls := urls s ++ [build_url filter_str (snd step)] |}, h') /\
    Forall full_row records /\
    (replied_nothing http filter_str step = true -> records = []).
Proof.
  unfold replied, replied_nothing. intros H.
  destruct (http (fst step) (build_url filter_str (snd step)))
    as [[|l]|] eqn:Eh; try discriminate.
  destruct (flatten_all_well_formed _ H) as (records & Er & Fr & Lr).
  unfold fetch, bind, try_except, requests_get_json1, print, ret, lift.
  rewrite Eh. cbn [flatten_data]. rewrite Er.
  eexists. eexists. split; [reflexivity|]. split; [assumption|].
  destruct l as [|o l]; [|discriminate].
  intros _. destruct records; [reflexivity | discriminate].
Qed.

Lemma for_each_replied (steps : list (nat * string)) (s : locals) (h : heap) :
  forallb (replied http filter_str) steps = true ->
  exists s' h' new,
    for_each (fetch http filter_str) steps s h = (Ok s', h') /\
    data_frames s' = data_frames s ++ new /\
    Forall2 (fun step records =>
               Forall full_row records /\
               (replied_nothing http filter_str step = true -> records = []))
            steps new.
Proof.
  revert s h. induction steps as [|step steps IH]; intros s h H.
  - exists s, h, []. simpl. rewrite app_nil_r. repeat split. constructor.
  - simpl in H. apply andb_prop in H. destruct H as [H1 H2].
    destruct (fetch_replied s step h H1) as (records & h1 & E1 & HF & Hn).
    rewrite for_each_cons, E1.
    match goal with
    | |- context [for_each _ steps ?s1 h1] =>
        destruct (IH s1 h1 H2) as (s' & h' & new & E & Ed & Hall)
    end.
    exists s', h', (records :: new). split; [exact E|]. split.
    + rewrite Ed. simpl. now rewrite <- app_assoc.
    + now constructor.
Qed.

End Replies.

Section LaterFailures.

Variable sort_values : sorter.
Variable http : collaborator.

(** X8.  With fewer than four indicators the call raises [IndexError], also
    when every request is answered with observations: the charts read the
    records at positions 1 and 3. *)
Theorem too_few_indicators (h : heap) :
  List.length (indicators_obj h) < 4 ->
  forallb (answered http (country_filter (countries_obj h)))
          (enumerate (indicators_obj h)) = true ->
  fst (return_figures sort_values http h) = Raise IndexError.
Proof.
  intros Hlen Hans. rewrite return_figures_eq.
  destruct (for_each_fetch_total http _ _
              {| data := None; data_frames := []; urls := [] |} h Hans)
    as (s & h1 & new & E & Ed & Hl & Hall).
  rewrite E. simpl in *. rewrite Ed.
  apply assemble_index_error; [|assumption].
  rewrite Hl. unfold enumerate. rewrite length_combine, length_seq. lia.
Qed.

(** X9.  When every request is answered with well-formed observations and
    the answer for the indicator at position 0, 1 or 3 is the empty list,
    the call raises [KeyError] for the date column, which a frame without
    rows does not have. *)
Theorem empty_answer_raises (h : heap) (i : nat) (code : string) :
  4 <= List.length (indicators_obj h) ->
  forallb (replied http (country_filter (countries_obj h)))
          (enumerate (indicators_obj h)) = true ->
  i = 0 \/ i = 1 \/ i = 3 ->
  nth_error (indicators_obj h) i = Some code ->
  http i (build_url (country_filter (countries_obj h)) code)
    = Some (JRecords []) ->
  fst (return_figures sort_values http h) = Raise (KeyError "date").
Proof.
  intros Hlen Hrep Hi Hn Hh. rewrite return_figures_eq.
  destruct (for_each_replied http _ _
              {| data := None; data_frames := []; urls := [] |} h Hrep)
    as (s & h1 & new & E & Ed & HF).
  rewrite E. simpl in *. rewrite Ed.
  assert (Hnew : List.length new = List.length (indicators_obj h)).
  { rewrite <- (Forall2_length HF). unfold enumerate.
    rewrite length_combine, length_seq. lia. }
  assert (G : forall j, j < 4 ->
                exists r, nth_error new j = Some r /\ Forall full_row r /\
                          (j = i -> r = [])).
  { intros j Hj. destruct (nth_error new j) as [r|] eqn:En.
    - exists r. split; [reflexivity|].
      destruct (Forall2_nth_error_r _ _ _ _ _ HF En)
        as ([j' code'] & Hs & Hfull & Hnil).
      split; [assumption|]. intros ->.
      apply nth_error_enumerate in Hs. destruct Hs as [-> Hs].
      rewrite Hn in Hs. injection Hs as <-.
      apply Hnil. unfold replied_nothing. simpl. now rewrite Hh.
    - apply nth_error_None in En. lia. }
  destruct (G 0) as (r0 & N0 & F0 & Z0); [lia|].
  destruct (G 1) as (r1 & N1 & F1 & Z1); [lia|].
  destruct (G 3) as (r3 & N3 & F3 & Z3); [lia|].
  apply (assemble_empty_frame sort_values new r0 r1 r3); auto.
  destruct Hi as [-> | [-> | ->]]; auto.
Qed.

End LaterFailures.

(** ** What flattening keeps *)

(** X10.  Flattening keeps the observations in number and in order, with
    their dates and values; it puts the display value of the nested country
    in the place of the nested object; and it cannot be done twice: a list
    that has been flattened and is not empty raises [TypeError] when it is
    flattened again. *)
Theorem flatten_all_keeps (l r : list observation) :
  flatten_all l = Ok r ->
  List.length r = List.length l /\
  map obs_date r = map obs_date l /\
  map obs_value r = map obs_value l /\
  Forall2 (fun raw o =>
             exists d s,
               obs_country raw = Some (Dict d) /\
               subscript_value (Dict d) = Ok s /\
               obs_country o = Some (Scalar (SStr s))) l r /\
  (r <> [] -> flatten_all r = Raise TypeError).
Proof.
  intros H. pose proof (flatten_all_ok l r H) as [HF H2].
  split; [symmetry; exact (Forall2_length H2)|].
  assert (K : map obs_date r = map obs_date l /\
              map obs_value r = map obs_value l /\
              Forall2 (fun raw o =>
                         exists d s,
                           obs_country raw = Some (Dict d) /\
                           subscript_value (Dict d) = Ok s /\
                           obs_country o = Some (Scalar (SStr s))) l r).
  { clear H HF. induction H2 as [|raw o l r Hf _ IH]; simpl.
    - repeat split. constructor.
    - destruct IH as (Id & Iv & Ic).
      pose proof (flatten_ok raw o Hf) as (_ & Hd & Hv & c & Hc & t & Ht & Ho).
      rewrite Hd, Hv, Id, Iv. repeat split. constructor; [|assumption].
      destruct c as [v|d]; [discriminate|]. exists d, t. auto. }
  destruct K as (Kd & Kv & Kc). repeat split; try assumption.
  intros Hne. destruct r as [|o r']; [congruence|].
  inversion HF; subst. simpl. now rewrite flatten_flattened.
Qed.

(** ** The further properties on small data *)

(** X1 on the example: Brazil and Canada, once each. *)
Lemma trace_names_distinct_witness :
  exists figs h',
    return_figures stable_sort http_example default_heap = (Ok figs, h') /\
    exists code l,
      nth_error (indicators_obj default_heap) 0 = Some code /\
      http_example 0 (build_url (country_filter (countries_obj default_heap))
                                code) = Some (JRecords l) /\
      Forall (fun fig =>
                NoDup (map trace_name (fig_data fig)) /\
                forall name,
                  In name (map trace_name (fig_data fig)) <->
                  exists raw d s,
                    In raw l /\ year_in years_one raw = true /\
                    obs_country raw = Some (Dict d) /\
                    subscript_value (Dict d) = Ok s /\
                    name = Scalar (SStr s)) figs.
Proof.
  eexists. eexists. split; [vm_compute; reflexivity|].
  eapply (trace_names_distinct stable_sort http_example default_heap).
  vm_compute; reflexivity.
Defined.

(** X2 on the example. *)
Lemma trace_x_ascending_witness :
  exists figs h',
    return_figures stable_sort http_example default_heap = (Ok figs, h') /\
    Forall (fun fig =>
              Forall (fun t => StronglySorted year_le (trace_x t))
                     (fig_data fig))
           figs.
Proof.
  eexists. eexists. split; [vm_compute; reflexivity|].
  eapply (trace_x_ascending stable_sort http_example default_heap).
  vm_compute; reflexivity.
Defined.

(** X3 on the example and on the collaborator with another third answer. *)
Lemma other_answers_unused_witness :
  (forall i url, i = 0 \/ i = 1 \/ i = 3 ->
                 http_other_third i url = http_example i url) /\
  exists figs h1 figs' h2,
    return_figures stable_sort http_example default_heap = (Ok figs, h1) /\
    return_figures stable_sort http_other_third default_heap = (Ok figs', h2) /\
    figs' = figs.
Proof.
  assert (A : forall i url, i = 0 \/ i = 1 \/ i = 3 ->
                            http_other_third i url = http_example i url)
    by (intros i url [-> | [-> | ->]]; reflexivity).
  split; [exact A|].
  eexists. eexists. eexists. eexists.
  split; [vm_compute; reflexivity|].
  split; [vm_compute; reflexivity|].
  eapply (other_answers_unused stable_sort http_example http_other_third
            default_heap _ _ _ _ A); vm_compute; reflexivity.
Defined.

(** X4 on an answer with an observation without a country. *)
Lemma flatten_error_surfaces_witness :
  forallb (answered http_no_country
                    (country_filter (countries_obj default_heap)))
          (firstn 1 (enumerate (indicators_obj default_heap))) = true /\
  nth_error (indicators_obj default_heap) 1 = Some "EG.FEC.RNEW.ZS" /\
  fst (return_figures stable_sort http_no_country default_heap) =
  Raise (KeyError "country").
Proof.
  split; [vm_compute; reflexivity|]. split; [reflexivity|].
  eapply (flatten_error_surfaces stable_sort http_no_country default_heap 1
            "EG.FEC.RNEW.ZS").
  - vm_compute; reflexivity.
  - reflexivity.
  - vm_compute; reflexivity.
  - vm_compute; reflexivity.
Defined.

(** X5 on a first request that fails. *)
Lemma failed_request_raises_witness :
  nth_error (indicators_obj default_heap) 0 = Some "EG.USE.ELEC.KH.PC" /\
  http_first_fails 0 (build_url (country_filter (countries_obj default_heap))
                                "EG.USE.ELEC.KH.PC") = None /\
  fst (return_figures stable_sort http_first_fails default_heap) =
  Raise (UnboundLocalError "data").
Proof.
  split; [reflexivity|]. split; [reflexivity|].
  apply (failed_request_raises stable_sort http_first_fails default_heap 0
           "EG.USE.ELEC.KH.PC"); reflexivity.
Defined.

(** X7 on the example, where every request is answered. *)
Lemma returns_only_if_answered_witness :
  exists figs h',
    return_figures stable_sort http_example default_heap = (Ok figs, h') /\
    forallb (fun step =>
               negb (failed http_example
                            (country_filter (countries_obj default_heap))
                            step))
            (enumerate (indicators_obj default_heap)) = true /\
    stdout h' = stdout default_heap.
Proof.
  eexists. eexists. split; [vm_compute; reflexivity|].
  eapply (returns_only_if_answered stable_sort http_example default_heap);
    vm_compute; reflexivity.
Defined.

(** X8 on three of the default indicators. *)
Lemma too_few_indicators_witness :
  List.length (indicators_obj three_indicators_heap) < 4 /\
  forallb (answered http_example
                    (country_filter (countries_obj three_indicators_heap)))
          (enumerate (indicators_obj three_indicators_heap)) = true /\
  fst (return_figures stable_sort http_example three_indicators_heap) =
  Raise IndexError.
Proof.
  split; [simpl; lia|]. split; [vm_compute; reflexivity|].
  apply (too_few_indicators stable_sort http_example three_indicators_heap).
  - simpl; lia.
  - vm_compute; reflexivity.
Defined.

(** X9 on a fourth answer that is empty. *)
Lemma empty_answer_raises_witness :
  forallb (replied http_fourth_empty
                   (country_filter (countries_obj default_heap)))
          (enumerate (indicators_obj default_heap)) = true /\
  http_fourth_empty 3
    (build_url (country_filter (countries_obj default_heap))
               "EN.ATM.GHGT.KT.CE") = Some (JRecords []) /\
  fst (return_figures stable_sort http_fourth_empty default_heap) =
  Raise (KeyError "date").
Proof.
  split; [vm_compute; reflexivity|]. split; [reflexivity|].
  apply (empty_answer_raises stable_sort http_fourth_empty default_heap 3
           "EN.ATM.GHGT.KT.CE").
  - simpl; lia.
  - vm_compute; reflexivity.
  - auto.
  - reflexivity.
  - reflexivity.
Defined.

(** X10 on two observations. *)
Lemma flatten_all_keeps_witness :
  exists r,
    flatten_all [ observed "Renewable energy" "Canada" "2015" 22;
                  observed "Renewable energy" "Brazil" "1990" 21 ] = Ok r /\
    List.length r = 2 /\
    map obs_date r = [Some (SStr "2015"); Some (SStr "1990")] /\
    map obs_value r = [Some (SNum 22); Some (SNum 21)] /\
    map obs_country r = [Some (Scalar (SStr "Canada"));
                         Some (Scalar (SStr "Brazil"))] /\
    flatten_all r = Raise TypeError.
Proof.
  eexists. split; [vm_compute; reflexivity|].
  destruct (flatten_all_keeps
              [ observed "Renewable energy" "Canada" "2015" 22;
                observed "Renewable energy" "Brazil" "1990" 21 ]
              _ eq_refl) as (Hl & Hd & Hv & _ & Ht).
  split; [exact Hl|]. split; [exact Hd|]. split; [exact Hv|].
  split; [reflexivity|]. apply Ht. discriminate.
Defined.

(** * Objects that the collaborator keeps *)

Lemma flatten_dict_spec (value : observation) :
  match flatten value with
  | Ok value' => flatten_dict value = (Ok tt, value')
  | Raise e => fst (flatten_dict value) = Raise e
  end.
Proof.
  destruct value as [oi oc od ov]. unfold flatten, flatten_dict. simpl.
  destruct oi as [[v|i]|]; simpl; try reflexivity.
  destruct (find (fun kv => fst kv =? "value") i); simpl; try reflexivity.
  destruct oc as [[v|c]|]; simpl; try reflexivity.
  destruct (find (fun kv => fst kv =? "value") c); reflexivity.
Qed.

Lemma flatten_in_place_spec (l : list observation) :
  match flatten_all l with
  | Ok r => flatten_in_place l = (Ok tt, r)
  | Raise e => fst (flatten_in_place l) = Raise e
  end.
Proof.
  induction l as [|value rest IH]; simpl; [reflexivity|].
  pose proof (flatten_dict_spec value) as Hv.
  destruct (flatten value) as [value'|e]; simpl.
  - rewrite Hv. destruct (flatten_all rest) as [r|e]; simpl.
    + now rewrite IH.
    + destruct (flatten_in_place rest) as [o rest']. simpl in *. exact IH.
  - destruct (flatten_dict value) as [[u|e'] value']; simpl in *;
      [discriminate | exact Hv].
Qed.

Section Refinement.

Variable sort_values : sorter.
Variable keep : keeper.
Hypothesis keep_nothing : keeps_nothing keep.

Lemma kfetch_fetch (filter_str : string) (s : locals) (ks : klocals)
    (step : nat * string) (h : heap) (k : nat -> json1) :
  same_locals s ks ->
  match fetch (decoding keep) filter_str s step h with
  | (Ok s', h') =>
      exists ks',
        kfetch keep filter_str ks step {| plain := h; kept := k |} =
        (Ok ks', {| plain := h'; kept := k |}) /\
        same_locals s' ks'
  | (Raise e, h') =>
      kfetch keep filter_str ks step {| plain := h; kept := k |} =
      (Raise e, {| plain := h'; kept := k |})
  end.
Proof.
  intros (Hd & Hf & Hu).
  unfold fetch, bind, try_except, requests_get_json1, print, ret, lift.
  unfold kfetch, kbind, ktry_except, hand_out, on_plain, kret, print,
    flatten_object, decoding.
  cbn [plain kept].
  destruct (keep (fst step) (build_url filter_str (snd step)))
    as [[d|a]|] eqn:Ek.
  - cbn [deref flatten_data]. destruct d as [|l]; [reflexivity|].
    pose proof (flatten_in_place_spec l) as Hl.
    destruct (flatten_all l) as [r|e]; simpl.
    + rewrite Hl. simpl. eexists. split; [reflexivity|].
      unfold same_locals. simpl. rewrite Hf, Hu, map_app. auto.
    + destruct (flatten_in_place l) as [[u|e'] l']; simpl in *;
        [discriminate | now injection Hl as ->].
  - exfalso. exact (keep_nothing _ _ _ Ek).
  - cbn [plain kept]. rewrite Hd.
    destruct (data s) as [[|l]|]; simpl; try reflexivity.
    pose proof (flatten_in_place_spec l) as Hl.
    destruct (flatten_all l) as [r|e]; simpl.
    + rewrite Hl. simpl. eexists. split; [reflexivity|].
      unfold same_locals. simpl. rewrite Hf, Hu, map_app. auto.
    + destruct (flatten_in_place l) as [[u|e'] l']; simpl in *;
        [discriminate | now injection Hl as ->].
Qed.

Lemma kfor_each_for_each (filter_str : string) (steps : list (nat * string))
    (s : locals) (ks : klocals) (h : heap) (k : nat -> json1) :
  same_locals s ks ->
  match for_each (fetch (decoding keep) filter_str) steps s h with
  | (Ok s', h') =>
      exists ks',
        kfor_each (kfetch keep filter_str) steps ks {| plain := h; kept := k |}
        = (Ok ks', {| plain := h'; kept := k |}) /\
        same_locals s' ks'
  | (Raise e, h') =>
      kfor_each (kfetch keep filter_str) steps ks {| plain := h; kept := k |}
      = (Raise e, {| plain := h'; kept := k |})
  end.
Proof.
  revert s ks h. induction steps as [|step steps IH]; intros s ks h Hs.
  - simpl. exists ks. auto.
  - rewrite for_each_cons. cbn [kfor_each]. unfold kbind.
    pose proof (kfetch_fetch filter_str s ks step h k Hs) as F.
    destruct (fetch (decoding keep) filter_str s step h) as [[s1|e] h1].
    + destruct F as (ks1 & -> & Hs1). exact (IH s1 ks1 h1 Hs1).
    + now rewrite F.
Qed.

(** With a keeper that keeps nothing, the call is the call with the
    collaborator that decodes, and the kept objects are left alone. *)
Lemma return_figures_keeping_decoding (h : heap) (k : nat -> json1) :
  return_figures_keeping sort_values keep {| plain := h; kept := k |} =
  (fst (return_figures sort_values (decoding keep) h),
   {| plain := snd (return_figures sort_values (decoding keep) h);
      kept := k |}).
Proof.
  rewrite return_figures_eq.
  unfold return_figures_keeping, kbind at 1 2, on_plain, read_countries,
    read_indicators.
  cbn [plain kept]. unfold kbind.
  pose proof (kfor_each_for_each (country_filter (countries_obj h))
                (enumerate (indicators_obj h))
                {| data := None; data_frames := []; urls := [] |}
                {| kdata := None; kdata_frames := []; kurls := [] |} h k)
    as F.
  destruct (for_each _ _ _ h) as [[s|e] h1].
  - destruct F as (ks & -> & (_ & Hf & _)); [now repeat split|].
    simpl. rewrite Hf, map_map. simpl. now rewrite map_id.
  - rewrite F; [reflexivity | now repeat split].
Qed.

End Refinement.

(** * A kept object after a call *)

(** A list that has been flattened is left as it is by a second pass, which
    raises at the first dict when there is one. *)
Lemma flatten_dict_flattened (value : observation) :
  flattened value -> flatten_dict value = (Raise TypeError, value).
Proof.
  intros [[s Hs] _]. unfold flatten_dict. now rewrite Hs.
Qed.

Lemma flatten_in_place_flattened (l : list observation) :
  Forall flattened l ->
  flatten_in_place l =
  (match l with [] => Ok tt | _ :: _ => Raise TypeError end, l).
Proof.
  intros HF. destruct l as [|value rest]; [reflexivity|].
  inversion HF; subst. simpl. now rewrite flatten_dict_flattened.
Qed.

Lemma flatten_in_place_ok (l l' : list observation) (u : unit) :
  flatten_in_place l = (Ok u, l') -> Forall flattened l'.
Proof.
  intros H. pose proof (flatten_in_place_spec l) as S.
  destruct (flatten_all l) as [r|e] eqn:E.
  - rewrite S in H. injection H as _ <-. now apply flatten_all_ok in E.
  - rewrite H in S. discriminate.
Qed.

Section KeptObjects.

Variable sort_values : sorter.
Variable keep : keeper.

(** [flatten_object] leaves the arguments, and a kept list that has been
    flattened already. *)
Lemma flatten_object_frame (r : dataref) (w w' : kheap)
    (out : result dataref) :
  flatten_object r w = (out, w') ->
  plain w' = plain w /\
  forall a l, kept w a = JRecords l -> Forall flattened l ->
              kept w' a = JRecords l.
Proof.
  unfold flatten_object. intros H.
  destruct (deref w r) as [|l0] eqn:D.
  { injection H as _ <-. auto. }
  destruct (flatten_in_place l0) as [o l1] eqn:F.
  destruct r as [d|b].
  - injection H as _ <-. auto.
  - injection H as _ <-. simpl. split; [reflexivity|].
    intros a l Ha HF. destruct (Nat.eqb a b) eqn:E; [|exact Ha].
    apply Nat.eqb_eq in E. subst b. simpl in D. rewrite Ha in D.
    injection D as <-. rewrite flatten_in_place_flattened in F by assumption.
    now injection F as _ <-.
Qed.

Ltac frame_of_step F :=
  let Hp := fresh "Hp" in
  let Hk := fresh "Hk" in
  let E := fresh "E" in
  apply flatten_object_frame in F; destruct F as (Hp & Hk); rewrite Hp;
  cbn [plain kept] in *;
  split; [now split|]; split; [exact Hk|]; intros ? E;
  first [discriminate | injection E as <-; eexists; reflexivity].

(** A step of the loop leaves the arguments, keeps the lists gathered so
    far, and leaves a kept list that has been flattened already. *)
Lemma kfetch_frame (filter_str : string) (ks : klocals) (step : nat * string)
    (w w' : kheap) (out : result klocals) :
  kfetch keep filter_str ks step w = (out, w') ->
  same_args (plain w) (plain w') /\
  (forall a l, kept w a = JRecords l -> Forall flattened l ->
               kept w' a = JRecords l) /\
  (forall ks', out = Ok ks' ->
               exists r, kdata_frames ks' = kdata_frames ks ++ [r]).
Proof.
  unfold kfetch, kbind, ktry_except, hand_out, on_plain, print, kret.
  cbn [plain kept].
  destruct (keep (fst step) (build_url filter_str (snd step)))
    as [[d|b]|] eqn:Ek.
  - destruct (flatten_object (Mine d) _) as [[r|e] w1] eqn:F; intros H;
      injection H as <- <-; frame_of_step F.
  - destruct (flatten_object (Theirs b) _) as [[r|e] w1] eqn:F; intros H;
      injection H as <- <-; frame_of_step F.
  - destruct (kdata ks) as [r0|].
    + destruct (flatten_object r0 _) as [[r|e] w1] eqn:F; intros H;
        injection H as <- <-; frame_of_step F.
    + intros H. injection H as <- <-. cbn [plain kept].
      split; [now split|]. split; [auto|]. discriminate.
Qed.

Lemma kfor_each_frame (filter_str : string) (steps : list (nat * string))
    (ks : klocals) (w w' : kheap) (out : result klocals) :
  kfor_each (kfetch keep filter_str) steps ks w = (out, w') ->
  same_args (plain w) (plain w') /\
  (forall a l, kept w a = JRecords l -> Forall flattened l ->
               kept w' a = JRecords l) /\
  (forall ks', out = Ok ks' ->
               exists more, kdata_frames ks' = kdata_frames ks ++ more).
Proof.
  revert ks w. induction steps as [|step steps IH]; intros ks w H.
  - injection H as <- <-. split; [apply same_args_refl|]. split; [auto|].
    intros ks' E. injection E as <-. exists []. now rewrite app_nil_r.
  - cbn [kfor_each] in H. unfold kbind in H.
    destruct (kfetch keep filter_str ks step w) as [[ks1|e] w1] eqn:F.
    + apply kfetch_frame in F. destruct F as (A1 & K1 & F1).
      apply IH in H. destruct H as (A2 & K2 & F2).
      split; [eapply same_args_trans; eassumption|].
      split; [intros a l Ha HF; apply K2; auto|].
      intros ks' E. destruct (F1 ks1 eq_refl) as (r & E1).
      destruct (F2 ks' E) as (more & E2).
      exists (r :: more). rewrite E2, E1, <- app_assoc. reflexivity.
    + injection H as <- <-. apply kfetch_frame in F.
      destruct F as (A1 & K1 & _). split; [exact A1|]. split; [exact K1|].
      discriminate.
Qed.

(** A step that is handed a kept object and goes through has flattened the
    object where it is kept. *)
Lemma kfetch_kept (filter_str : string) (ks ks' : klocals)
    (step : nat * string) (a : nat) (w w' : kheap) :
  keep (fst step) (build_url filter_str (snd step)) = Some (Kept a) ->
  kfetch keep filter_str ks step w = (Ok ks', w') ->
  kdata_frames ks' = kdata_frames ks ++ [Theirs a] /\
  exists l, kept w' a = JRecords l /\ Forall flattened l.
Proof.
  intros Ek. unfold kfetch, kbind, ktry_except, hand_out, on_plain, kret.
  rewrite Ek. unfold flatten_object. cbn [deref plain kept].
  destruct (kept w a) as [|l0]; [discriminate|].
  destruct (flatten_in_place l0) as [[u|e] l1] eqn:F; cbn [rbind];
    [|discriminate].
  intros H. injection H as <- <-. cbn [kdata_frames kept].
  split; [reflexivity|]. exists l1. rewrite Nat.eqb_refl.
  split; [reflexivity|]. now apply flatten_in_place_ok in F.
Qed.

(** A step that is handed a kept list which has been flattened already
    raises, unless the list is empty. *)
Lemma kfetch_kept_again (filter_str : string) (ks : klocals)
    (step : nat * string) (a : nat) (w : kheap) (value : observation)
    (rest : list observation) :
  keep (fst step) (build_url filter_str (snd step)) = Some (Kept a) ->
  kept w a = JRecords (value :: rest) -> Forall flattened (value :: rest) ->
  fst (kfetch keep filter_str ks step w) = Raise TypeError.
Proof.
  intros Ek Ha HF. unfold kfetch, kbind, ktry_except, hand_out, on_plain, kret.
  rewrite Ek. unfold flatten_object. cbn [deref plain kept]. rewrite Ha.
  now rewrite flatten_in_place_flattened.
Qed.

Lemma return_figures_keeping_eq (w : kheap) :
  return_figures_keeping sort_values keep w =
  match kfor_each (kfetch keep (country_filter (countries_obj (plain w))))
          (enumerate (indicators_obj (plain w)))
          {| kdata := None; kdata_frames := []; kurls := [] |}
          {| plain := plain w; kept := kept w |} with
  | (Ok s, w1) =>
      (assemble sort_values
         (map (fun r => records_of (deref w1 r)) (kdata_frames s)), w1)
  | (Raise e, w1) => (Raise e, w1)
  end.
Proof. reflexivity. Qed.

(** A call that returns after it was handed a kept object at its first
    request leaves the object as a list of flattened dicts, which is not
    empty; the arguments are as they were. *)
Lemma return_figures_keeping_kept (w w' : kheap) (code0 : string)
    (rest : list string) (a : nat) (figs : list figure) :
  indicators_obj (plain w) = code0 :: rest ->
  keep 0 (build_url (country_filter (countries_obj (plain w))) code0) =
  Some (Kept a) ->
  return_figures_keeping sort_values keep w = (Ok figs, w') ->
  same_args (plain w) (plain w') /\
  exists value l, kept w' a = JRecords (value :: l) /\
                  Forall flattened (value :: l).
Proof.
  intros Hi Ek. rewrite return_figures_keeping_eq, Hi.
  change (enumerate (code0 :: rest))
    with ((0, code0) :: combine (seq 1 (List.length rest)) rest).
  cbn [kfor_each]. unfold kbind.
  destruct (kfetch keep _ _ (0, code0) _) as [[ks1|e] w1] eqn:F;
    [|discriminate].
  pose proof (kfetch_frame _ _ _ _ _ _ F) as (A1 & _ & _).
  apply kfetch_kept with (a := a) in F; [|exact Ek].
  destruct F as (F1 & l1 & K1 & HF1). simpl in F1.
  destruct (kfor_each _ _ ks1 w1) as [[ks2|e] w2] eqn:L; [|discriminate].
  apply kfor_each_frame in L. destruct L as (A2 & K2 & F2).
  destruct (F2 ks2 eq_refl) as (more & E2). rewrite F1 in E2.
  intros H. injection H as H <-.
  split; [eapply same_args_trans; eassumption|].
  specialize (K2 a l1 K1 HF1).
  rewrite E2 in H. simpl in H. rewrite K2 in H. simpl in H.
  destruct l1 as [|value l].
  - unfold assemble, df_one in H. rewrite prepare_empty in H by reflexivity.
    discriminate.
  - eauto.
Qed.

End KeptObjects.

Section SecondCall.

Variable sort_values : sorter.
Variable keep : keeper.

(** C8 (amended).  Of two calls with the same arguments, the second made
    on the heap the first has left, to a collaborator that answers each
    request as before: when the collaborator decodes every answer into
    objects of its own, as [requests] does, the second call has the result
    of the first, figures or exception; when the collaborator hands out, at
    the first request, a list that it keeps, as a mock with fixtures does,
    and the first call returns, the dicts of the list have been rewritten
    where they are kept and the second call raises [TypeError]. *)
Theorem second_call_result (w : kheap) :
  (keeps_nothing keep ->
   fst (return_figures_keeping sort_values keep
          (snd (return_figures_keeping sort_values keep w))) =
   fst (return_figures_keeping sort_values keep w)) /\
  (forall code0 rest a figs,
      indicators_obj (plain w) = code0 :: rest ->
      keep 0 (build_url (country_filter (countries_obj (plain w))) code0) =
      Some (Kept a) ->
      fst (return_figures_keeping sort_values keep w) = Ok figs ->
      fst (return_figures_keeping sort_values keep
             (snd (return_figures_keeping sort_values keep w))) =
      Raise TypeError).
Proof.
  split.
  - intros Hk. destruct w as [h k].
    rewrite (return_figures_keeping_decoding sort_values keep Hk h k).
    cbn [snd fst].
    rewrite (return_figures_keeping_decoding sort_values keep Hk).
    cbn [fst].
    exact (proj1 (return_figures_again sort_values (decoding keep) h)).
  - intros code0 rest a figs Hi Ek H.
    destruct (return_figures_keeping sort_values keep w) as [out w'] eqn:E.
    simpl in H. subst out. cbn [snd].
    destruct (return_figures_keeping_kept sort_values keep w w' code0 rest a
                figs Hi Ek E) as ([Hc Hn] & value & l & Ka & HF).
    rewrite return_figures_keeping_eq, <- Hc, <- Hn, Hi.
    change (enumerate (code0 :: rest))
      with ((0, code0) :: combine (seq 1 (List.length rest)) rest).
    cbn [kfor_each]. unfold kbind.
    pose proof (kfetch_kept_again keep
                  (country_filter (countries_obj (plain w)))
                  {| kdata := None; kdata_frames := []; kurls := [] |}
                  (0, code0) a {| plain := plain w'; kept := kept w' |}
                  value l Ek Ka HF) as R.
    destruct (kfetch keep _ _ (0, code0) _) as [[ks1|e] w1];
      simpl in R; [discriminate|]. now injection R as ->.
Qed.

End SecondCall.

(** ** The second call on small data *)

Lemma keep_decoded_keeps_nothing : keeps_nothing keep_decoded.
Proof.
  intros i url a H. unfold keep_decoded in H.
  destruct (http_example i url); discriminate.
Qed.

(** C8 on the example: with answers decoded afresh the second call has the
    result of the first; with the first answer kept by the mock, the first
    call returns and the second raises. *)
Lemma second_call_result_witness :
  fst (return_figures_keeping stable_sort keep_decoded
         (snd (return_figures_keeping stable_sort keep_decoded
                 default_kheap))) =
  fst (return_figures_keeping stable_sort keep_decoded default_kheap) /\
  exists figs,
    fst (return_figures_keeping stable_sort keep_first default_kheap) =
    Ok figs /\
    fst (return_figures_keeping stable_sort keep_first
           (snd (return_figures_keeping stable_sort keep_first
                   default_kheap))) =
    Raise TypeError.
Proof.
  split.
  - apply (proj1 (second_call_result stable_sort keep_decoded default_kheap)).
    exact keep_decoded_keeps_nothing.
  - destruct (fst (return_figures_keeping stable_sort keep_first
                     default_kheap)) as [figs|e] eqn:E.
    + exists figs. split; [reflexivity|].
      eapply (proj2 (second_call_result stable_sort keep_first default_kheap));
        [reflexivity | reflexivity | exact E].
    + vm_compute in E. discriminate.
Defined.

(** C8 as worded.  With a mock that returns the same fixtures at every
    call, the first call returns figures and leaves the dicts of the
    fixtures rewritten, and the second call, with the same arguments and the
    same answers, raises [TypeError]. *)
Lemma kept_fixtures_second_call_raises :
  (exists figs,
      fst (return_figures_keeping stable_sort keep_fixtures default_kheap) =
      Ok figs) /\
  fst (return_figures_keeping stable_sort keep_fixtures
         (snd (return_figures_keeping stable_sort keep_fixtures
                 default_kheap))) =
  Raise TypeError /\
  kept default_kheap 2 = JRecords [observed "Energy use" "Brazil" "1990" 937] /\
  kept (snd (return_figures_keeping stable_sort keep_fixtures default_kheap))
       2 =
  JRecords [ {| obs_indicator := Some (Scalar (SStr "Energy use"));
                obs_country := Some (Scalar (SStr "Brazil"));
                obs_date := Some (SStr "1990");
                obs_value := Some (SNum 937) |} ].
Proof.
  split; [eexists; vm_compute; reflexivity|].
  split; [vm_compute; reflexivity|].
  split; vm_compute; reflexivity.
Qed.
